(** * Patient data cleaner and emergency-room dosage calculator

    A shallow embedding of [1_patient_data_cleaner.py] and
    [2_med_dosage_calculator.py].  Both scripts work on the values produced
    by [json.load]; the embedding keeps Python's dynamic typing: every
    builtin operation the scripts use is a function on [pyval] that either
    returns a value or raises a Python exception.

    Floats are IEEE-754 binary64 numbers (Rocq's primitive floats, the same
    format and rounding as CPython's [float]).  Strings are ASCII text. *)

From Stdlib Require Import ZArith PrimFloat SpecFloat FloatOps Ascii String.
From stdpp Require Import base option list strings functions pretty.

#[local] Set Warnings "-inexact-float,-register-all".
#[local] Open Scope Z_scope.

(** ** Python values and builtin operations *)
Module Py.

(** The exceptions that the builtin operations below can raise. *)
Inductive exn : Set :=
| KeyError
| TypeError
| AttributeError
| OverflowError.

(** Result of evaluating a Python expression. *)
Inductive outcome (A : Type) : Type :=
| Ok (a : A)
| Raise (e : exn).
Arguments Ok {A} a.
Arguments Raise {A} e.

(** Sequencing, shared by plain evaluation and by evaluation in a store. *)
Class Bind (M : Type → Type) : Type :=
  bind : ∀ {A B : Type}, M A → (A → M B) → M B.

Notation "x <- m ;; k" := (bind m (fun x => k))
  (at level 100, m at next level, right associativity).

#[global] Instance outcome_bind : Bind outcome := fun A B m k =>
  match m with
  | Ok a => k a
  | Raise e => Raise e
  end.

(** What [json.load] can return.  A JSON object becomes a [dict] with string
    keys; it is kept as an association list in insertion order. *)
Inductive pyval : Type :=
| PyNone
| PyBool (b : bool)
| PyInt (n : Z)
| PyFloat (f : float)
| PyStr (s : string)
| PyList (l : list pyval)
| PyDict (d : list (string * pyval)).

Definition dict : Type := list (string * pyval).

(** [d[k]] lookup, [None] when the key is absent. *)
Fixpoint dict_get (k : string) (d : dict) : option pyval :=
  match d with
  | [] => None
  | (k', v) :: d' => if String.eqb k k' then Some v else dict_get k d'
  end.

(** [d[k] = v]: an existing key keeps its position, a new key goes last. *)
Fixpoint dict_set (k : string) (v : pyval) (d : dict) : dict :=
  match d with
  | [] => [(k, v)]
  | (k', v') :: d' =>
      if String.eqb k k' then (k', v) :: d' else (k', v') :: dict_set k v d'
  end.

(** [obj[key]] for a string key. *)
Definition py_getitem (obj : pyval) (key : string) : outcome pyval :=
  match obj with
  | PyDict d =>
      match dict_get key d with
      | Some v => Ok v
      | None => Raise KeyError
      end
  | _ => Raise TypeError
  end.

(** [obj[key] = v] for a string key; the updated object is returned. *)
Definition py_setitem (obj : pyval) (key : string) (v : pyval) : outcome pyval :=
  match obj with
  | PyDict d => Ok (PyDict (dict_set key v d))
  | _ => Raise TypeError
  end.

(** [obj.get(key, default)]: only dicts have a [get] method. *)
Definition py_get (obj : pyval) (key : string) (default : pyval) : outcome pyval :=
  match obj with
  | PyDict d =>
      match dict_get key d with
      | Some v => Ok v
      | None => Ok default
      end
  | _ => Raise AttributeError
  end.

(** [obj.copy()]: a shallow copy; dicts and lists have it. *)
Definition py_copy (obj : pyval) : outcome pyval :=
  match obj with
  | PyDict d => Ok (PyDict d)
  | PyList l => Ok (PyList l)
  | _ => Raise AttributeError
  end.

(** Truth value of an object, as tested by [if]. *)
Definition truthy (v : pyval) : bool :=
  match v with
  | PyNone => false
  | PyBool b => b
  | PyInt n => negb (n =? 0)
  | PyFloat f => negb (PrimFloat.eqb f 0%float)
  | PyStr s => negb (String.eqb s "")
  | PyList l => match l with [] => false | _ => true end
  | PyDict d => match d with [] => false | _ => true end
  end.

(** [v == s] for a string literal [s]. *)
Definition py_eq_str (v : pyval) (s : string) : bool :=
  match v with
  | PyStr m => String.eqb m s
  | _ => false
  end.

(** [v in l] for a list [l] of string literals. *)
Definition py_in_strs (v : pyval) (l : list string) : bool :=
  existsb (py_eq_str v) l.

(** *** Numbers *)

(** int to float, correctly rounded; [None] when the int is too large
    (CPython raises [OverflowError]). *)
Definition float_of_Z (n : Z) : option float :=
  match binary_normalize prec emax n 0 false with
  | S754_infinity _ => None
  | sf => Some (SF2Prim sf)
  end.

Inductive num : Set :=
| NInt (n : Z)
| NFloat (f : float).

(** [bool] is a subclass of [int]. *)
Definition as_num (v : pyval) : option num :=
  match v with
  | PyBool b => Some (NInt (Z.b2z b))
  | PyInt n => Some (NInt n)
  | PyFloat f => Some (NFloat f)
  | _ => None
  end.

Definition to_float (x : num) : outcome float :=
  match x with
  | NFloat f => Ok f
  | NInt n =>
      match float_of_Z n with
      | Some f => Ok f
      | None => Raise OverflowError
      end
  end.

(** Binary arithmetic on numbers: ints stay ints, anything else is done in
    floating point after converting the int operand. *)
Definition num_binop (iop : Z → Z → Z) (fop : float → float → float)
    (x y : num) : outcome pyval :=
  match x, y with
  | NInt a, NInt b => Ok (PyInt (iop a b))
  | _, _ =>
      a <- to_float x;;
      b <- to_float y;;
      Ok (PyFloat (fop a b))
  end.

(** Sequence repetition [s * n]; a count below one gives the empty
    sequence. *)
Fixpoint str_repeat (s : string) (n : nat) : string :=
  match n with
  | O => ""%string
  | S n' => (s ++ str_repeat s n')%string
  end.

Fixpoint list_repeat {A} (l : list A) (n : nat) : list A :=
  match n with
  | O => []
  | S n' => l ++ list_repeat l n'
  end.

Definition as_count (v : pyval) : option nat :=
  match v with
  | PyBool b => Some (Z.to_nat (Z.b2z b))
  | PyInt n => Some (Z.to_nat n)
  | _ => None
  end.

(** [a * b]. *)
Definition py_mul (a b : pyval) : outcome pyval :=
  match as_num a, as_num b with
  | Some x, Some y => num_binop Z.mul PrimFloat.mul x y
  | _, _ =>
      match a, as_count b, as_count a, b with
      | PyStr s, Some n, _, _ => Ok (PyStr (str_repeat s n))
      | PyList l, Some n, _, _ => Ok (PyList (list_repeat l n))
      | _, _, Some n, PyStr s => Ok (PyStr (str_repeat s n))
      | _, _, Some n, PyList l => Ok (PyList (list_repeat l n))
      | _, _, _, _ => Raise TypeError
      end
  end.

(** [a + b]. *)
Definition py_add (a b : pyval) : outcome pyval :=
  match as_num a, as_num b with
  | Some x, Some y => num_binop Z.add PrimFloat.add x y
  | _, _ =>
      match a, b with
      | PyStr s, PyStr t => Ok (PyStr (s ++ t))
      | PyList l, PyList m => Ok (PyList (l ++ m))
      | _, _ => Raise TypeError
      end
  end.

(** [f > n] for a float and an int, compared exactly. *)
Definition float_gt_Z (f : float) (n : Z) : bool :=
  match Prim2SF f with
  | S754_nan => false
  | S754_infinity s => negb s
  | S754_zero _ => 0 >? n
  | S754_finite s m e =>
      let v := if s then Z.neg m else Z.pos m in
      if 0 <=? e then v * 2 ^ e >? n else v >? n * 2 ^ (- e)
  end.

(** [a > n] for an int literal [n]; only numbers are ordered against an
    int. *)
Definition py_gt_int (a : pyval) (n : Z) : outcome bool :=
  match as_num a with
  | Some (NInt x) => Ok (x >? n)
  | Some (NFloat f) => Ok (float_gt_Z f n)
  | None => Raise TypeError
  end.

(** *** Strings *)

Definition is_upper (c : ascii) : bool :=
  let n := N_of_ascii c in ((65 <=? n) && (n <=? 90))%N.

Definition is_lower (c : ascii) : bool :=
  let n := N_of_ascii c in ((97 <=? n) && (n <=? 122))%N.

Definition is_cased (c : ascii) : bool := is_upper c || is_lower c.

Definition to_upper (c : ascii) : ascii :=
  if is_lower c then ascii_of_N (N_of_ascii c - 32) else c.

Definition to_lower (c : ascii) : ascii :=
  if is_upper c then ascii_of_N (N_of_ascii c + 32) else c.

(** [str.title()] on ASCII text: a character that follows a letter is
    lowercased, any other character is uppercased.  Only [A-Z] and [a-z] are
    cased here and one character maps to one character, which is Python's
    result for a string of ASCII characters only; names with other
    characters are outside the model (see [Text.ascii_text]). *)
Fixpoint title_from (previous_is_cased : bool) (s : string) : string :=
  match s with
  | EmptyString => EmptyString
  | String c s' =>
      String (if previous_is_cased then to_lower c else to_upper c)
             (title_from (is_cased c) s')
  end.

Definition str_title (s : string) : string := title_from false s.

(** *** Attribute access

    The attributes the cleaner looks up on its values.  Of these the
    builtin types only have [str.title]; [fillna], [astype] and
    [drop_duplicates] belong to pandas objects, which [json.load] never
    produces. *)
Inductive attr : Set :=
| a_title
| a_fillna
| a_astype
| a_drop_duplicates.

Inductive bound_method : Type :=
| StrTitle (self : string).

Definition py_getattr (v : pyval) (a : attr) : outcome bound_method :=
  match v, a with
  | PyStr s, a_title => Ok (StrTitle s)
  | _, _ => Raise AttributeError
  end.

(** An argument of a call: a value, or the builtin type [int]. *)
Inductive callarg : Type :=
| ArgVal (v : pyval)
| ArgIntType.

Definition py_call (m : bound_method) (args : list callarg) : outcome pyval :=
  match m, args with
  | StrTitle s, [] => Ok (PyStr (str_title s))
  | StrTitle _, _ :: _ => Raise TypeError
  end.

End Py.

(** ** [1_patient_data_cleaner.py] *)
Module PatientCleaner.
Import Py.

(** The caller's list holds references to record objects.  [store] gives the
    current contents of each object; an assignment [patient[k] = v] updates
    the object in the store, where the caller sees it. *)
Definition loc : Set := nat.
Definition store : Type := loc → pyval.

(** Statements run in a state-and-exception monad: an exception keeps the
    writes made before it. *)
Definition M (A : Type) : Type := store → outcome A * store.

Definition ret {A} (a : A) : M A := fun σ => (Ok a, σ).

#[global] Instance M_bind : Bind M := fun A B m k σ =>
  match m σ with
  | (Ok a, σ') => k a σ'
  | (Raise e, σ') => (Raise e, σ')
  end.

Definition lift {A} (o : outcome A) : M A := fun σ => (o, σ).

Definition load (l : loc) : M pyval := fun σ => (Ok (σ l), σ).

Definition write (l : loc) (v : pyval) : M unit := fun σ => (Ok tt, <[l := v]> σ).

(** [patient[key] = v] through the reference. *)
Definition store_setitem (patient : loc) (key : string) (v : pyval) : M unit :=
  obj <- load patient;;
  obj' <- lift (py_setitem obj key v);;
  write patient obj'.

(** Line 83: [patient['name'] = patient['name'].title()] *)
Definition name_stmt (patient : loc) : M unit :=
  obj <- load patient;;
  name <- lift (py_getitem obj "name");;
  title <- lift (py_getattr name a_title);;
  titled <- lift (py_call title []);;
  store_setitem patient "name" titled.

(** Line 87: [patient['age'] = patient['age'].fillna(0).astype(int)] *)
Definition age_stmt (patient : loc) : M unit :=
  obj <- load patient;;
  age <- lift (py_getitem obj "age");;
  fillna <- lift (py_getattr age a_fillna);;
  filled <- lift (py_call fillna [ArgVal (PyInt 0)]);;
  astype <- lift (py_getattr filled a_astype);;
  converted <- lift (py_call astype [ArgIntType]);;
  store_setitem patient "age" converted.

(** Line 93: [patient = patient.drop_duplicates()]; the result is the new
    value of the loop variable. *)
Definition dedup_stmt (patient : loc) : M pyval :=
  obj <- load patient;;
  drop_duplicates <- lift (py_getattr obj a_drop_duplicates);;
  lift (py_call drop_duplicates []).

(** Lines 98-101: [if patient['age'] > 18: cleaned_patients.append(patient)] *)
Definition filter_stmt (patient : pyval) (cleaned_patients : list pyval)
    : outcome (list pyval) :=
  age <- py_getitem patient "age";;
  keep <- py_gt_int age 18;;
  if (keep : bool) then Ok (cleaned_patients ++ [patient])
  else Ok cleaned_patients.

(** The body of the [for] loop, lines 80-101. *)
Definition loop_body (patient : loc) (cleaned_patients : list pyval)
    : M (list pyval) :=
  _ <- name_stmt patient;;
  _ <- age_stmt patient;;
  patient' <- dedup_stmt patient;;
  lift (filter_stmt patient' cleaned_patients).

Fixpoint for_loop (patients : list loc) (cleaned_patients : list pyval)
    : M (list pyval) :=
  match patients with
  | [] => ret cleaned_patients
  | patient :: rest =>
      cleaned_patients' <- loop_body patient cleaned_patients;;
      for_loop rest cleaned_patients'
  end.

(** Lines 105-108: [if not cleaned_patients: return None] and
    [return cleaned_patients]. *)
Definition return_stmt (cleaned_patients : list pyval) : pyval :=
  if negb (truthy (PyList cleaned_patients)) then PyNone
  else PyList cleaned_patients.

Definition clean_patient_data (patients : list loc) : M pyval :=
  cleaned_patients <- for_loop patients [];;
  ret (return_stmt cleaned_patients).

(** The spec's reading of name normalisation, for comparison with
    [str_title]: the first character of each whitespace-separated token is
    uppercased, the rest of the token lowercased. *)
Definition is_space (c : ascii) : bool :=
  let n := N_of_ascii c in
  (((9 <=? n) && (n <=? 13)) || ((28 <=? n) && (n <=? 32)))%N.

Fixpoint capitalize_tokens_from (in_token : bool) (s : string) : string :=
  match s with
  | EmptyString => EmptyString
  | String c s' =>
      if is_space c then String c (capitalize_tokens_from false s')
      else String (if in_token then to_lower c else to_upper c)
                  (capitalize_tokens_from true s')
  end.

Definition capitalize_tokens (s : string) : string :=
  capitalize_tokens_from false s.

End PatientCleaner.

(** ** [2_med_dosage_calculator.py] *)
Module DosageCalculator.
Import Py.

(** Dosage factors, mg per kg of body weight. *)
Definition DOSAGE_FACTORS : list (string * float) :=
  [ ("epinephrine", 0.01%float);
    ("amiodarone", 5.00%float);
    ("lorazepam", 0.05%float);
    ("fentanyl", 0.001%float);
    ("lisinopril", 0.5%float);
    ("metformin", 10.0%float);
    ("oseltamivir", 2.5%float);
    ("sumatriptan", 1.0%float);
    ("albuterol", 0.1%float);
    ("ibuprofen", 5.0%float);
    ("sertraline", 1.5%float);
    ("levothyroxine", 0.02%float) ]%string.

(** Medications that use loading doses for first administration. *)
Definition LOADING_DOSE_MEDICATIONS : list string :=
  [ "amiodarone"; "lorazepam"; "fentanyl" ]%string.

Fixpoint factor_lookup (m : string) (table : list (string * float)) : option float :=
  match table with
  | [] => None
  | (k, f) :: table' => if String.eqb m k then Some f else factor_lookup m table'
  end.

(** [DOSAGE_FACTORS.get(medication, 0)].  The key is hashed first: a list or
    a dict is unhashable; every other non-string key is simply absent. *)
Definition factors_get (medication : pyval) : outcome pyval :=
  match medication with
  | PyStr m =>
      match factor_lookup m DOSAGE_FACTORS with
      | Some f => Ok (PyFloat f)
      | None => Ok (PyInt 0)
      end
  | PyList _ | PyDict _ => Raise TypeError
  | _ => Ok (PyInt 0)
  end.

(** Lines 108-182. *)
Definition calculate_dosage (patient : pyval) : outcome pyval :=
  patient_with_dosage <- py_copy patient;;
  weight <- py_get patient "weight" PyNone;;
  medication <- py_get patient "medication" PyNone;;
  factor <- factors_get medication;;
  base_dosage <- py_mul weight factor;;
  is_first_dose <- py_get patient "is_first_dose" (PyBool false);;
  if truthy is_first_dose then
    if py_in_strs medication LOADING_DOSE_MEDICATIONS then
      py_mul base_dosage (PyInt 2)
    else Ok base_dosage
  else Ok base_dosage.

(** Lines 214-224: the advisory strings. *)
Definition warnings_for (medication : pyval) : list pyval :=
  if py_eq_str medication "epinephrine" then
    [PyStr "Monitor for arrhythmias"]
  else if py_eq_str medication "amiodarone" then
    [PyStr "Monitor for hypotension"]
  else if py_eq_str medication "fentanyl" then
    [PyStr "Monitor for respiratory depression"]
  else [].

(** Lines 198-230: one round of the loop up to the [append]; gives the
    record and [temp_dosage]. *)
Definition dosage_record (patient : pyval) : outcome (pyval * pyval) :=
  patient_with_dosage <- py_copy patient;;
  temp_dosage <- calculate_dosage patient_with_dosage;;
  patient_with_dosage <- py_setitem patient_with_dosage "dosage" temp_dosage;;
  patient_with_dosage <- py_setitem patient_with_dosage "final_dosage" temp_dosage;;
  weight <- py_get patient_with_dosage "weight" PyNone;;
  medication <- py_get patient_with_dosage "medication" PyNone;;
  factor <- factors_get medication;;
  base_dosage <- py_mul weight factor;;
  patient_with_dosage <- py_setitem patient_with_dosage "base_dosage" base_dosage;;
  patient_with_dosage <-
    py_setitem patient_with_dosage "warnings" (PyList (warnings_for medication));;
  Ok (patient_with_dosage, temp_dosage).

(** The [for] loop of lines 198-238, with its two accumulators. *)
Fixpoint dosage_loop (patients : list pyval) (total_medication : pyval)
    (patients_with_dosages : list pyval) : outcome (list pyval * pyval) :=
  match patients with
  | [] => Ok (patients_with_dosages, total_medication)
  | patient :: rest =>
      r <- dosage_record patient;;
      total_medication' <- py_add total_medication (snd r);;
      dosage_loop rest total_medication' (patients_with_dosages ++ [fst r])
  end.

(** Lines 184-240. *)
Definition calculate_all_dosages (patients : list pyval)
    : outcome (list pyval * pyval) :=
  dosage_loop patients (PyInt 0) [].

(** The sum of a list of dosages, added left to right from [0]. *)
Fixpoint sum_from (total : pyval) (dosages : list pyval) : outcome pyval :=
  match dosages with
  | [] => Ok total
  | x :: rest => total' <- py_add total x;; sum_from total' rest
  end.

(** The [final_dosage] values of a list of records. *)
Fixpoint final_dosages (records : list pyval) : outcome (list pyval) :=
  match records with
  | [] => Ok []
  | r :: rest =>
      x <- py_getitem r "final_dosage";;
      xs <- final_dosages rest;;
      Ok (x :: xs)
  end.

(** A JSON number. *)
Definition is_number (w : pyval) : bool :=
  match w with
  | PyInt _ | PyFloat _ => true
  | _ => false
  end.

(** A number with a float value: a float, or an int that converts to
    one. *)
Definition has_float_value (w : pyval) : bool :=
  match w with
  | PyFloat _ => true
  | PyInt n => match float_of_Z n with Some _ => true | None => false end
  | _ => false
  end.

Definition medication_of (d : dict) : pyval :=
  default PyNone (dict_get "medication" d).

(** [is_first_dose], with its default, as a truth value. *)
Definition first_dose (d : dict) : bool :=
  truthy (default (PyBool false) (dict_get "is_first_dose" d)).

Definition loading_dose_applies (d : dict) : bool :=
  first_dose d && py_in_strs (medication_of d) LOADING_DOSE_MEDICATIONS.

(** The factor named by the spec: the table entry, 0 when unknown. *)
Definition factor_of (medication : pyval) : pyval :=
  match medication with
  | PyStr m =>
      match factor_lookup m DOSAGE_FACTORS with
      | Some f => PyFloat f
      | None => PyInt 0
      end
  | _ => PyInt 0
  end.

Definition hashable (v : pyval) : bool :=
  match v with
  | PyList _ | PyDict _ => false
  | _ => true
  end.

(** A request the calculator accepts: a dict with a weight that has a float
    value and a hashable medication. *)
Definition well_formed_request (p : pyval) : bool :=
  match p with
  | PyDict d =>
      match dict_get "weight" d with
      | Some w => has_float_value w && hashable (medication_of d)
      | None => false
      end
  | _ => false
  end.

(** The values dosages and totals take: a float, or the int 0. *)
Definition is_dose (v : pyval) : bool :=
  match v with
  | PyFloat _ => true
  | PyInt n => n =? 0
  | _ => false
  end.

(** Twice a number. *)
Definition doubled (v : pyval) : pyval :=
  match v with
  | PyFloat f => PyFloat (f * 2)%float
  | PyInt n => PyInt (n * 2)
  | _ => v
  end.

End DosageCalculator.

(** ** Sample inputs *)
Module Samples.
Import Py PatientCleaner.
#[local] Open Scope string_scope.

Definition patient_record (name age : pyval) : pyval :=
  PyDict [("name", name); ("age", age);
          ("gender", PyStr "male"); ("diagnosis", PyStr "flu")].

(** The record of the module docstring. *)
Definition john : pyval := patient_record (PyStr "john smith") (PyStr "32").

(** A patient on the age boundary, before and after normalisation. *)
Definition adult18 : pyval := patient_record (PyStr "a b") (PyStr "18").
Definition adult18_normalized : pyval := patient_record (PyStr "A B") (PyInt 18).

Definition malformed_age : pyval := patient_record (PyStr "a b") (PyStr "abc").

Definition oneil : pyval := patient_record (PyStr "o'neil") (PyStr "40").

(** A store in which every reference holds the same contents. *)
Definition all_records (r : pyval) : store := fun _ => r.

(** The name of the record behind a reference. *)
Definition name_of (σ : store) (l : loc) : option pyval :=
  match σ l with
  | PyDict d => dict_get "name" d
  | _ => None
  end.

Definition dosage_request (weight : pyval) (medication : string) (first : bool)
    : pyval :=
  PyDict [("name", PyStr "John Smith"); ("weight", weight);
          ("medication", PyStr medication); ("is_first_dose", PyBool first)].

(** What the calculator returns for a first dose of amiodarone at 70 kg. *)
Definition amiodarone_first_dose_record : pyval :=
  PyDict [("name", PyStr "John Smith"); ("weight", PyInt 70);
          ("medication", PyStr "amiodarone"); ("is_first_dose", PyBool true);
          ("dosage", PyFloat 700%float); ("final_dosage", PyFloat 700%float);
          ("base_dosage", PyFloat 350%float);
          ("warnings", PyList [PyStr "Monitor for hypotension"])].

Definition three_requests : list pyval :=
  [ dosage_request (PyInt 70) "amiodarone" true;
    dosage_request (PyFloat 55.5%float) "fentanyl" false;
    dosage_request (PyInt 70) "aspirin" false ].

End Samples.

(** ** More builtins, used to state what the scripts preserve *)
Module Text.
Import Py.

(** The names the casing functions are modelled for: every character is
    ASCII. *)
Fixpoint ascii_text (s : string) : bool :=
  match s with
  | EmptyString => true
  | String c s' => (N_of_ascii c <? 128)%N && ascii_text s'
  end.

(** An object whose name, if it has a text name, is ASCII. *)
Definition ascii_name (obj : pyval) : bool :=
  match obj with
  | PyDict d =>
      match dict_get "name" d with
      | Some (PyStr s) => ascii_text s
      | _ => true
      end
  | _ => true
  end.

(** [str.lower()] on ASCII text. *)
Fixpoint str_lower (s : string) : string :=
  match s with
  | EmptyString => EmptyString
  | String c s' => String (to_lower c) (str_lower s')
  end.

(** Objects that are not a dict with a text [name]. *)
Definition has_text_name (obj : pyval) : bool :=
  match obj with
  | PyDict d =>
      match dict_get "name" d with
      | Some (PyStr _) => true
      | _ => false
      end
  | _ => false
  end.

(** [weight], with the default of [patient.get('weight')]. *)
Definition weight_of (d : dict) : pyval :=
  default PyNone (dict_get "weight" d).

(** The keys that [calculate_all_dosages] assigns in a record. *)
Definition assigned_key (k : string) : bool :=
  (String.eqb k "dosage" || String.eqb k "final_dosage" ||
   String.eqb k "base_dosage" || String.eqb k "warnings")%bool.

Definition is_ok {A} (o : outcome A) : bool :=
  match o with
  | Ok _ => true
  | Raise _ => false
  end.

End Text.

(** ** The scripts around the two functions: loading and reporting *)
Module Scripts.
Import Py PatientCleaner DosageCalculator Text.
#[local] Open Scope string_scope.

(** What [open] and [json.load] give for the data file: the decoded value,
    or an exception whose text is [message]. *)
Inductive file_read : Type :=
| Loaded (v : pyval)
| LoadFailed (message : string).

(** [load_patient_data], the same in both scripts: the value it returns and
    what it prints. *)
Definition load_patient_data (file : file_read) : pyval * list string :=
  match file with
  | Loaded v => (v, [])
  | LoadFailed message => (PyList [], ["Failed to load patient data: " ++ message])
  end.

(** How a script can end: with an exception of the builtins above, or with
    the [ValueError] that formatting and [str] can raise. *)
Inductive raised : Set :=
| Builtin (e : exn)
| ValueError.

Inductive result (A : Type) : Type :=
| Done (a : A)
| Failed (e : raised).
Arguments Done {A} a.
Arguments Failed {A} e.

#[global] Instance result_bind : Bind result := fun A B m k =>
  match m with
  | Done a => k a
  | Failed e => Failed e
  end.

(** A script prints as it goes: the lines printed so far are threaded
    through, and stay printed when an exception ends the script. *)
Definition Script (A : Type) : Type := list string → result A * list string.

#[global] Instance Script_bind : Bind Script := fun A B m k out =>
  match m out with
  | (Done a, out') => k a out'
  | (Failed e, out') => (Failed e, out')
  end.

Definition done {A} (a : A) : Script A := fun out => (Done a, out).

Definition print (line : string) : Script unit :=
  fun out => (Done tt, (out ++ [line])%list).

Definition try_result {A} (r : result A) : Script A := fun out => (r, out).

Definition eval {A} (o : outcome A) : Script A :=
  try_result (match o with
              | Ok a => Done a
              | Raise e => Failed (Builtin e)
              end).

Fixpoint for_each {A} (body : A → Script unit) (l : list A) : Script unit :=
  match l with
  | [] => done tt
  | x :: rest => _ <- body x;; for_each body rest
  end.

(** The characters of a string, as strings. *)
Fixpoint chars (s : string) : list pyval :=
  match s with
  | EmptyString => []
  | String c s' => PyStr (String c EmptyString) :: chars s'
  end.

(** What a [for] loop iterates over: the elements of a list, the keys of a
    dict, the characters of a string; nothing else is iterable. *)
Definition py_iter (v : pyval) : outcome (list pyval) :=
  match v with
  | PyList l => Ok l
  | PyDict d => Ok (map (λ kv, PyStr (fst kv)) d)
  | PyStr s => Ok (chars s)
  | _ => Raise TypeError
  end.

(** The objects of a freshly loaded list, one per position. *)
Definition store_of (items : list pyval) : store :=
  fun l => default PyNone (items !! l).

(** [clean_patient_data] applied to a loaded value. *)
Definition clean_loaded (patients : pyval) : outcome pyval :=
  items <- py_iter patients;;
  fst (clean_patient_data (seq 0%nat (length items)) (store_of items)).

(** [calculate_all_dosages] applied to a loaded value. *)
Definition dosages_loaded (patients : pyval) : outcome (list pyval * pyval) :=
  items <- py_iter patients;;
  calculate_all_dosages items.

(** *** Formatting *)

(** [n / d] rounded to the nearest integer, ties to even, for [0 <= n] and
    [0 < d]. *)
Definition round_half_even (n d : Z) : Z :=
  let q := n / d in
  let r := n mod d in
  if (2 * r <? d)%Z then q
  else if (d <? 2 * r)%Z then q + 1
  else if Z.even q then q else q + 1.

(** A number of hundredths, printed with two decimals. *)
Definition hundredths (cents : Z) : string :=
  let frac := cents mod 100 in
  pretty (cents / 100) ++ "." ++ (if (frac <? 10)%Z then "0" else "") ++ pretty frac.

(** [format(f, '.2f')] for a float: the decimal with two digits after the
    point that is nearest to the exact value of [f]. *)
Definition format_float_2f (f : float) : string :=
  match Prim2SF f with
  | S754_nan => "nan"
  | S754_infinity s => (if s then "-" else "") ++ "inf"
  | S754_zero s => (if s then "-" else "") ++ "0.00"
  | S754_finite s m e =>
      (if s then "-" else "") ++
      hundredths (if (0 <=? e)%Z then Z.pos m * 2 ^ e * 100
                  else round_half_even (Z.pos m * 100) (2 ^ (- e)))
  end.

(** [format(v, '.2f')]: an int is converted to float first; text has no
    format code [f]; [None], lists and dicts take no format code at all. *)
Definition format_2f (v : pyval) : result string :=
  match v with
  | PyFloat f => Done (format_float_2f f)
  | PyInt _ | PyBool _ =>
      match as_num v with
      | Some x =>
          match to_float x with
          | Ok f => Done (format_float_2f f)
          | Raise e => Failed (Builtin e)
          end
      | None => Failed (Builtin TypeError)
      end
  | PyStr _ => Failed ValueError
  | _ => Failed (Builtin TypeError)
  end.

(** [sep.join(v)]: every item must be a string. *)
Fixpoint join_strs (sep : string) (items : list pyval) : outcome string :=
  match items with
  | [] => Ok ""
  | PyStr s :: rest =>
      match rest with
      | [] => Ok s
      | _ => tail <- join_strs sep rest;; Ok (s ++ sep ++ tail)
      end
  | _ :: _ => Raise TypeError
  end.

Definition py_join (sep : string) (v : pyval) : outcome string :=
  items <- py_iter v;;
  join_strs sep items.

(** The line feed of ["\nTotal ..."]. *)
Definition newline : string := String (ascii_of_N 10) EmptyString.

Section Reporting.

(** [str] of a number, a list or a dict is not modelled: it is whatever
    this function says, an exception included. *)
Variable str_other : pyval → result string.

(** [str(v)], as used by a replacement field without format code. *)
Definition py_str (v : pyval) : result string :=
  match v with
  | PyStr s => Done s
  | PyNone => Done "None"
  | PyBool true => Done "True"
  | PyBool false => Done "False"
  | _ => str_other v
  end.

(** Script 1, line 139. *)
Definition print_patient (patient : pyval) : Script unit :=
  name <- eval (py_getitem patient "name");;
  name <- try_result (py_str name);;
  age <- eval (py_getitem patient "age");;
  age <- try_result (py_str age);;
  diagnosis <- eval (py_getitem patient "diagnosis");;
  diagnosis <- try_result (py_str diagnosis);;
  print ("Name: " ++ name ++ ", Age: " ++ age ++ ", Diagnosis: " ++ diagnosis).

(** Script 1, [main], lines 110-142. *)
Definition cleaner_main (file : file_read) : Script pyval :=
  let loaded := load_patient_data file in
  _ <- for_each print (snd loaded);;
  cleaned_patients <- eval (clean_loaded (fst loaded));;
  _ <- (if truthy cleaned_patients then
          _ <- print "Cleaned Patient Data:";;
          items <- eval (py_iter cleaned_patients);;
          for_each print_patient items
        else done tt);;
  done cleaned_patients.

(** Script 2, lines 267-273: the report of one record. *)
Definition print_dosage (patient : pyval) : Script unit :=
  name <- eval (py_get patient "name" PyNone);;
  name <- try_result (py_str name);;
  medication <- eval (py_get patient "medication" PyNone);;
  medication <- try_result (py_str medication);;
  base_dosage <- eval (py_get patient "base_dosage" PyNone);;
  base_dosage <- try_result (format_2f base_dosage);;
  final_dosage <- eval (py_get patient "final_dosage" PyNone);;
  final_dosage <- try_result (format_2f final_dosage);;
  _ <- print ("Name: " ++ name ++ ", Medication: " ++ medication ++
              ", Base Dosage: " ++ base_dosage ++ " mg, " ++
              "Final Dosage: " ++ final_dosage ++ " mg");;
  loading_dose_applied <- eval (py_get patient "loading_dose_applied" PyNone);;
  _ <- (if truthy loading_dose_applied then print "  * Loading dose applied"
        else done tt);;
  warnings <- eval (py_get patient "warnings" PyNone);;
  if truthy warnings then
    warnings <- eval (py_getitem patient "warnings");;
    joined <- eval (py_join ", " warnings);;
    print ("  * Warnings: " ++ joined)
  else done tt.

(** Script 2, [main], lines 242-278. *)
Definition dosage_main (file : file_read) : Script (list pyval * pyval) :=
  let loaded := load_patient_data file in
  _ <- for_each print (snd loaded);;
  _ <- (if negb (truthy (fst loaded)) then
          print "Error loading patient data: No patient data found."
        else done tt);;
  r <- eval (dosages_loaded (fst loaded));;
  _ <- print "Medication Dosages:";;
  _ <- for_each print_dosage (fst r);;
  total <- try_result (format_2f (snd r));;
  _ <- print (newline ++ "Total medication needed: " ++ total ++ " mg");;
  done r.

End Reporting.

(** The note of line 271. *)
Definition loading_note : string := "  * Loading dose applied".

(** The request does not itself say that a loading dose was applied. *)
Definition flag_unset (p : pyval) : bool :=
  match p with
  | PyDict d => negb (truthy (default PyNone (dict_get "loading_dose_applied" d)))
  | _ => true
  end.

(** Values whose [str] is modelled: text, [None] and booleans. *)
Definition str_modelled (v : pyval) : bool :=
  match v with
  | PyStr _ | PyNone | PyBool _ => true
  | _ => false
  end.

(** A request the report can print: well formed, with a name and a
    medication that are text or absent. *)
Definition reportable (p : pyval) : bool :=
  well_formed_request p &&
  match p with
  | PyDict d =>
      str_modelled (default PyNone (dict_get "name" d)) &&
      str_modelled (medication_of d)
  | _ => false
  end.

(** [m] only adds lines that satisfy [P]. *)
Definition keeps {A} (P : string → Prop) (m : Script A) : Prop :=
  ∀ out, Forall P out → Forall P (snd (m out)).

(** [m] finishes, having printed between [lo] and [hi] more lines. *)
Definition finishes {A} (lo hi : nat) (m : Script A) (a : A) : Prop :=
  ∀ out, ∃ lines, m out = (Done a, (out ++ lines)%list) ∧
                  (lo ≤ length lines ≤ hi)%nat.

(** A [str] that is never needed: for reports whose names and medications
    are text. *)
Definition no_str : pyval → result string := fun _ => Failed (Builtin TypeError).

End Scripts.

(** ** Facts about the builtin operations *)
Module PyFacts.
Import Py.
#[local] Open Scope string_scope.

Lemma dict_get_set (k k' : string) (v : pyval) (d : dict) :
  dict_get k (dict_set k' v d) = if String.eqb k k' then Some v else dict_get k d.
Proof.
  induction d as [|[k0 v0] d IH]; simpl.
  - destruct (String.eqb k k'); reflexivity.
  - destruct (String.eqb k' k0) eqn:E0; simpl.
    + apply String.eqb_eq in E0; subst k0.
      destruct (String.eqb k k'); reflexivity.
    + destruct (String.eqb k k0) eqn:E1.
      * apply String.eqb_eq in E1; subst k0.
        destruct (String.eqb k k') eqn:E2; [|reflexivity].
        apply String.eqb_eq in E2; subst k'.
        rewrite String.eqb_refl in E0; discriminate.
      * exact IH.
Qed.

Lemma getitem_setitem (k k' : string) (v : pyval) (d : dict) :
  py_getitem (PyDict (dict_set k' v d)) k =
    if String.eqb k k' then Ok v else py_getitem (PyDict d) k.
Proof.
  unfold py_getitem. rewrite dict_get_set.
  destruct (String.eqb k k'); reflexivity.
Qed.

End PyFacts.

(** ** Facts about the patient cleaner *)
Module CleanerFacts.
Import Py PatientCleaner Samples PyFacts.
#[local] Open Scope string_scope.

Ltac run := unfold bind, M_bind, outcome_bind, load, lift, write, ret; simpl.

(** The name assignment either raises before writing, or writes the
    title-cased name into the caller's record. *)
Lemma name_stmt_cases (l : loc) (σ : store) :
  (∃ e, name_stmt l σ = (Raise e, σ)) ∨
  (∃ d s, σ l = PyDict d ∧ dict_get "name" d = Some (PyStr s) ∧
          name_stmt l σ =
            (Ok tt, <[l := PyDict (dict_set "name" (PyStr (str_title s)) d)]> σ)).
Proof.
  unfold name_stmt, store_setitem; run.
  destruct (σ l) as [| | | | |?|d] eqn:Hl; simpl; eauto.
  destruct (dict_get "name" d) as [[| | | |s| |]|] eqn:Hn; simpl; eauto.
  right. exists d, s. auto.
Qed.

Lemma name_stmt_ok (l : loc) (σ : store) (d : dict) (s : string) :
  σ l = PyDict d → dict_get "name" d = Some (PyStr s) →
  name_stmt l σ =
    (Ok tt, <[l := PyDict (dict_set "name" (PyStr (str_title s)) d)]> σ).
Proof.
  intros Hl Hn. unfold name_stmt, store_setitem; run.
  rewrite Hl; simpl. rewrite Hn. reflexivity.
Qed.

(** No JSON value has a [fillna] attribute: the age assignment always
    raises, and writes nothing. *)
Lemma age_stmt_raises (l : loc) (σ : store) :
  ∃ e, age_stmt l σ = (Raise e, σ).
Proof.
  unfold age_stmt; run.
  destruct (py_getitem (σ l) "age") as [a|e]; simpl; eauto.
  destruct a; simpl; eauto.
Qed.

Lemma age_stmt_attribute_error (l : loc) (σ : store) (d : dict) (a : pyval) :
  σ l = PyDict d → dict_get "age" d = Some a →
  age_stmt l σ = (Raise AttributeError, σ).
Proof.
  intros Hl Ha. unfold age_stmt; run. rewrite Hl. simpl. rewrite Ha.
  destruct a; reflexivity.
Qed.

(** Nor has any a [drop_duplicates] attribute. *)
Lemma dedup_stmt_raises (l : loc) (σ : store) :
  dedup_stmt l σ = (Raise AttributeError, σ).
Proof.
  unfold dedup_stmt; run. destruct (σ l); reflexivity.
Qed.

Lemma loop_body_cases (l : loc) (cleaned : list pyval) (σ : store) :
  (∃ e, loop_body l cleaned σ = (Raise e, σ)) ∨
  (∃ e d s, σ l = PyDict d ∧ dict_get "name" d = Some (PyStr s) ∧
            loop_body l cleaned σ =
              (Raise e, <[l := PyDict (dict_set "name" (PyStr (str_title s)) d)]> σ)).
Proof.
  unfold loop_body.
  destruct (name_stmt_cases l σ) as [[e He]|(d & s & Hl & Hn & He)].
  - left. exists e. unfold bind, M_bind. rewrite He. reflexivity.
  - right.
    destruct (age_stmt_raises l
                (<[l := PyDict (dict_set "name" (PyStr (str_title s)) d)]> σ))
      as [e Ha].
    exists e, d, s. repeat split; try assumption.
    unfold bind, M_bind. rewrite He. unfold bind, M_bind in Ha |- *.
    rewrite Ha. reflexivity.
Qed.

(** The call touches at most the first record of its input, and of that
    only the name. *)
Lemma clean_patient_data_cases (patients : list loc) (σ : store) :
  match patients with
  | [] => clean_patient_data patients σ = (Ok PyNone, σ)
  | l :: _ =>
      (∃ e, clean_patient_data patients σ = (Raise e, σ)) ∨
      (∃ e d s, σ l = PyDict d ∧ dict_get "name" d = Some (PyStr s) ∧
                clean_patient_data patients σ =
                  (Raise e,
                   <[l := PyDict (dict_set "name" (PyStr (str_title s)) d)]> σ))
  end.
Proof.
  destruct patients as [|l rest]; [reflexivity|].
  unfold clean_patient_data; simpl.
  destruct (loop_body_cases l [] σ) as [[e He]|(e & d & s & Hl & Hn & He)].
  - left. exists e. unfold bind, M_bind. rewrite He. reflexivity.
  - right. exists e, d, s. repeat split; try assumption.
    unfold bind, M_bind. rewrite He. reflexivity.
Qed.

Lemma return_stmt_cases (cleaned : list pyval) :
  return_stmt cleaned = PyNone ∨ ∃ x xs, return_stmt cleaned = PyList (x :: xs).
Proof.
  destruct cleaned as [|x xs]; [left; reflexivity|right; exists x, xs; reflexivity].
Qed.

(** On an integer age the filter keeps the record exactly when the age is
    above 18. *)
Lemma filter_stmt_int_age (d : dict) (n : Z) (cleaned : list pyval) :
  dict_get "age" d = Some (PyInt n) →
  filter_stmt (PyDict d) cleaned =
    Ok (if n >? 18 then (cleaned ++ [PyDict d])%list else cleaned).
Proof.
  intros Ha. unfold filter_stmt, py_getitem. rewrite Ha.
  unfold bind, outcome_bind. simpl. destruct (n >? 18); reflexivity.
Qed.

(** C1. The age filter of lines 98-101 keeps a record only when its age is
    above 18: a patient aged exactly 18 is dropped by the filter, one aged 19
    is kept.  On the raw record the call as a whole does not get that far:
    it raises [AttributeError] at line 87. *)
Theorem age_18_is_not_retained :
  fst (clean_patient_data [0%nat] (all_records adult18)) = Raise AttributeError ∧
  filter_stmt adult18_normalized [] = Ok [] ∧
  filter_stmt (patient_record (PyStr "A B") (PyInt 19)) [] =
    Ok [patient_record (PyStr "A B") (PyInt 19)].
Proof. repeat split. Qed.

(** C2. Whatever the age field of the first record holds, a valid integer
    representation or not, the call raises [AttributeError]: no age is
    coerced to 0 and none is converted to an integer. *)
Theorem age_is_never_normalized (σ : store) (l : loc) (rest : list loc)
    (d : dict) (s : string) (a : pyval) :
  σ l = PyDict d →
  dict_get "name" d = Some (PyStr s) →
  dict_get "age" d = Some a →
  fst (clean_patient_data (l :: rest) σ) = Raise AttributeError.
Proof.
  intros Hl Hn Ha.
  assert (age_stmt l (<[l := PyDict (dict_set "name" (PyStr (str_title s)) d)]> σ)
          = (Raise AttributeError,
             <[l := PyDict (dict_set "name" (PyStr (str_title s)) d)]> σ)) as Hage.
  { eapply age_stmt_attribute_error.
    - unfold insert, fn_insert. rewrite decide_True by reflexivity. reflexivity.
    - rewrite dict_get_set. exact Ha. }
  unfold clean_patient_data, for_loop, loop_body, bind, M_bind.
  rewrite (name_stmt_ok l σ d s Hl Hn), Hage. reflexivity.
Qed.

Lemma age_is_never_normalized_witness :
  fst (clean_patient_data [0%nat] (all_records malformed_age)) = Raise AttributeError.
Proof.
  apply (age_is_never_normalized (all_records malformed_age) 0%nat []
           [("name", PyStr "a b"); ("age", PyStr "abc");
            ("gender", PyStr "male"); ("diagnosis", PyStr "flu")]
           "a b" (PyStr "abc")); reflexivity.
Defined.

(** C3. An input holding the same record twice is not reduced to one
    record: the call raises.  The deduplication of line 93 looks up
    [drop_duplicates] on the record, which no JSON value has. *)
Theorem duplicates_are_not_removed :
  fst (clean_patient_data [0%nat; 1%nat] (all_records john)) = Raise AttributeError ∧
  ∀ (l : loc) (σ : store), dedup_stmt l σ = (Raise AttributeError, σ).
Proof. split; [reflexivity|apply dedup_stmt_raises]. Qed.

(** C4, as stated, fails: on the empty input the call returns [None], not
    an empty list. *)
Lemma empty_input_does_not_return_empty_list :
  fst (clean_patient_data [] (all_records john)) ≠ Ok (PyList []).
Proof. discriminate. Qed.

(** C4, amended. On the empty input the call returns [None] and leaves the
    store alone; whenever the call returns, the value is [None] or a
    non-empty list, never an empty one. *)
Theorem no_patients_returns_none :
  (∀ σ : store, clean_patient_data [] σ = (Ok PyNone, σ)) ∧
  (∀ (patients : list loc) (σ σ' : store) (v : pyval),
     clean_patient_data patients σ = (Ok v, σ') →
     v = PyNone ∨ ∃ x xs, v = PyList (x :: xs)).
Proof.
  split; [reflexivity|].
  intros patients σ σ' v. unfold clean_patient_data, bind, M_bind.
  destruct (for_loop patients [] σ) as [[cleaned|e] σ1]; [|discriminate].
  unfold ret. intros [= <- _].
  destruct (return_stmt_cases cleaned) as [->|(x & xs & ->)]; eauto.
Qed.

Lemma no_patients_returns_none_witness :
  clean_patient_data [] (all_records john) = (Ok PyNone, all_records john) ∧
  (PyNone = PyNone ∨ ∃ x xs, PyNone = PyList (x :: xs)).
Proof.
  destruct no_patients_returns_none as [H0 H1]. split.
  - apply H0.
  - apply (H1 [] (all_records john) (all_records john) PyNone). apply H0.
Defined.

(** C8, as stated, fails: after the call the caller's record has a
    different name. *)
Lemma clean_overwrites_the_callers_record :
  snd (clean_patient_data [0%nat] (all_records john)) 0%nat ≠ all_records john 0%nat.
Proof. vm_compute. discriminate. Qed.

(** C8, amended. After the call every object that the input list does
    not refer to is as it was, and every object is either as it was or a
    record that agrees with the original on every key other than [name] and
    [age]. *)
Theorem clean_patient_data_frame (patients : list loc) (σ : store) (l : loc) :
  (l ∉ patients → snd (clean_patient_data patients σ) l = σ l) ∧
  (snd (clean_patient_data patients σ) l = σ l ∨
   ∃ d d', σ l = PyDict d ∧
           snd (clean_patient_data patients σ) l = PyDict d' ∧
           ∀ k : string, k ≠ "name" → k ≠ "age" → dict_get k d' = dict_get k d).
Proof.
  pose proof (clean_patient_data_cases patients σ) as H.
  destruct patients as [|l0 rest].
  - rewrite H. split; [reflexivity|left; reflexivity].
  - destruct H as [[e He]|(e & d & s & Hl & Hn & He)]; rewrite He; simpl.
    + split; [reflexivity|left; reflexivity].
    + unfold insert, fn_insert. destruct (decide (l0 = l)) as [<-|Hne].
      * split.
        -- intros Hnotin. exfalso. apply Hnotin. apply elem_of_cons. left.
           reflexivity.
        -- right. exists d, (dict_set "name" (PyStr (str_title s)) d).
           repeat split; [assumption|].
           intros k Hk _. rewrite dict_get_set.
           destruct (String.eqb k "name") eqn:E; [|reflexivity].
           apply String.eqb_eq in E. contradiction.
      * split; [reflexivity|left; reflexivity].
Qed.

Lemma clean_patient_data_frame_witness :
  snd (clean_patient_data [0%nat] (all_records john)) 1%nat = john ∧
  ∃ v, snd (clean_patient_data [0%nat] (all_records john)) 0%nat = v ∧
       py_getitem v "gender" = Ok (PyStr "male").
Proof.
  split.
  - apply (clean_patient_data_frame [0%nat] (all_records john) 1%nat).
    intros Hin. apply elem_of_cons in Hin as [Hin|Hin]; [discriminate Hin|].
    inversion Hin.
  - eexists; split; [reflexivity|].
    destruct (clean_patient_data_frame [0%nat] (all_records john) 0%nat)
      as [_ [H|(d & d' & Hd & Hd' & Hk)]].
    + rewrite H. reflexivity.
    + rewrite Hd'. simpl. rewrite Hk by discriminate.
      injection Hd as <-. reflexivity.
Defined.

(** Line 83 is [str.title()], for which every character that is not a
    letter starts a word: ["o'neil"] is written back as ["O'Neil"], where
    capitalising the whitespace-separated token gives ["O'neil"]. *)
Lemma title_capitalises_after_an_apostrophe :
  name_of (snd (clean_patient_data [0%nat] (all_records oneil))) 0%nat
    = Some (PyStr "O'Neil") ∧
  capitalize_tokens "o'neil" = "O'neil".
Proof. split; reflexivity. Qed.


End CleanerFacts.

(** ** Facts about the dosage calculator *)
Module DosageFacts.
Import Py DosageCalculator Samples PyFacts.
#[local] Open Scope string_scope.

Ltac unbind := unfold bind, outcome_bind; simpl.

Lemma factors_get_hashable (medication : pyval) :
  hashable medication = true → factors_get medication = Ok (factor_of medication).
Proof.
  destruct medication as [| | | |m| |]; intros H;
    try discriminate H; try reflexivity.
  unfold factors_get, factor_of.
  destruct (factor_lookup m DOSAGE_FACTORS); reflexivity.
Qed.

(** A factor is a float from the table or the int 0. *)
Lemma factor_of_cases (medication : pyval) :
  (∃ f, factor_of medication = PyFloat f) ∨ factor_of medication = PyInt 0.
Proof.
  destruct medication as [| | | |m| |]; try (right; reflexivity).
  unfold factor_of. destruct (factor_lookup m DOSAGE_FACTORS); eauto.
Qed.

(** Every medication that takes a loading dose has a float factor. *)
Lemma loading_factor_is_float (medication : pyval) :
  py_in_strs medication LOADING_DOSE_MEDICATIONS = true →
  ∃ f, factor_of medication = PyFloat f.
Proof.
  destruct medication as [| | | |m| |]; intros H; try discriminate H.
  simpl in H.
  repeat (apply orb_true_iff in H as [H|H]); try discriminate H;
    apply String.eqb_eq in H; subst m; eexists; reflexivity.
Qed.

(** Multiplying a number by a float factor gives a float or overflows. *)
Lemma mul_float_factor (w : pyval) (f : float) :
  is_number w = true →
  (∃ b, py_mul w (PyFloat f) = Ok (PyFloat b)) ∨
  py_mul w (PyFloat f) = Raise OverflowError.
Proof.
  destruct w as [| |n|x| | |]; simpl; try discriminate; intros _.
  - unfold py_mul, num_binop; simpl. unbind.
    destruct (float_of_Z n); simpl; eauto.
  - left. eexists. reflexivity.
Qed.

Lemma mul_has_float_value (w factor : pyval) :
  has_float_value w = true →
  (∃ f, factor = PyFloat f) ∨ factor = PyInt 0 →
  ∃ base, py_mul w factor = Ok base.
Proof.
  destruct w as [| |n|x| | |]; simpl; try discriminate.
  - destruct (float_of_Z n) as [y|] eqn:E; [|discriminate].
    intros _ [[f ->]| ->]; unfold py_mul, num_binop; simpl; unbind.
    + rewrite E. simpl. eauto.
    + eauto.
  - intros _ [[f ->]| ->]; unfold py_mul, num_binop; simpl; unbind; eauto.
Qed.

Lemma double_float (b : float) :
  py_mul (PyFloat b) (PyInt 2) = Ok (doubled (PyFloat b)).
Proof. reflexivity. Qed.

(** [calculate_dosage] as one product and a conditional doubling. *)
Lemma calculate_dosage_eq (d : dict) (w : pyval) :
  dict_get "weight" d = Some w →
  is_number w = true →
  hashable (medication_of d) = true →
  calculate_dosage (PyDict d) =
    (base <- py_mul w (factor_of (medication_of d));;
     Ok (if loading_dose_applies d then doubled base else base)).
Proof.
  intros Hw Hnum Hhash.
  assert (∀ dflt k, py_get (PyDict d) k dflt = Ok (default dflt (dict_get k d)))
    as Hget.
  { intros dflt k. unfold py_get. destruct (dict_get k d); reflexivity. }
  unfold calculate_dosage, loading_dose_applies, first_dose.
  rewrite !Hget. fold (medication_of d). rewrite Hw.
  unfold bind, outcome_bind, py_copy. cbv beta iota.
  change (default PyNone (Some w)) with w.
  rewrite (factors_get_hashable _ Hhash).
  destruct (py_mul w (factor_of (medication_of d))) as [base|e] eqn:Hmul;
    [|reflexivity].
  destruct (truthy (default (PyBool false) (dict_get "is_first_dose" d)));
    [|reflexivity].
  destruct (py_in_strs (medication_of d) LOADING_DOSE_MEDICATIONS) eqn:Hin;
    [|reflexivity].
  destruct (loading_factor_is_float _ Hin) as [f Hf]. rewrite Hf in Hmul.
  destruct (mul_float_factor w f Hnum) as [[b Hb]|Hb];
    rewrite Hb in Hmul; [|discriminate].
  injection Hmul as <-. reflexivity.
Qed.

(** A record that comes out of one round of the loop is the request with
    four keys assigned, in this order. *)
Lemma dosage_record_shape (patient r t : pyval) :
  dosage_record patient = Ok (r, t) →
  ∃ d base ws,
    patient = PyDict d ∧
    calculate_dosage (PyDict d) = Ok t ∧
    r = PyDict (dict_set "warnings" (PyList ws)
                 (dict_set "base_dosage" base
                   (dict_set "final_dosage" t (dict_set "dosage" t d)))).
Proof.
  unfold dosage_record.
  destruct patient as [| | | | |l|d]; try discriminate.
  unfold py_copy, bind at 1, outcome_bind.
  destruct (calculate_dosage (PyDict d)) as [t'|e] eqn:Hcalc; [|discriminate].
  unfold bind, outcome_bind, py_setitem, py_get.
  repeat match goal with
         | |- context [match ?x with _ => _ end] =>
             match x with
             | dict_get _ _ => destruct x
             | factors_get _ => destruct x
             | py_mul _ _ => destruct x
             end
         end; try discriminate;
    intros [= <- <-]; eexists _, _, _; repeat split; exact Hcalc.
Qed.

Lemma dosage_record_keys (patient r t : pyval) :
  dosage_record patient = Ok (r, t) →
  py_getitem r "final_dosage" = Ok t ∧
  py_getitem r "dosage" = Ok t ∧
  py_getitem r "loading_dose_applied" = py_getitem patient "loading_dose_applied".
Proof.
  intros H. apply dosage_record_shape in H as (d & base & ws & -> & _ & ->).
  rewrite !getitem_setitem. repeat split.
Qed.

(** What the loop returns: the records of the rounds appended to the list
    so far, and the dosages of the rounds added one by one to the total so
    far. *)
Lemma dosage_loop_rounds (patients : list pyval) :
  ∀ (total : pyval) (acc rs : list pyval) (total' : pyval),
    dosage_loop patients total acc = Ok (rs, total') →
    ∃ rounds : list (pyval * pyval),
      Forall2 (λ p o, dosage_record p = Ok o) patients rounds ∧
      rs = (acc ++ map fst rounds)%list ∧
      sum_from total (map snd rounds) = Ok total'.
Proof.
  induction patients as [|p ps IH]; intros total acc rs total'; simpl.
  - intros [= <- <-]. exists []. rewrite app_nil_r. repeat split. constructor.
  - unfold bind at 1, outcome_bind.
    destruct (dosage_record p) as [o|e] eqn:Ho; [|discriminate].
    unfold bind at 1, outcome_bind.
    destruct (py_add total (snd o)) as [total1|e] eqn:Hadd; [|discriminate].
    intros H. apply IH in H as (rounds & Hall & -> & Hsum).
    exists (o :: rounds). repeat split.
    + constructor; assumption.
    + simpl. rewrite <- app_assoc. reflexivity.
    + simpl. unfold bind, outcome_bind. rewrite Hadd. exact Hsum.
Qed.

Lemma final_dosages_rounds (patients : list pyval) (rounds : list (pyval * pyval)) :
  Forall2 (λ p o, dosage_record p = Ok o) patients rounds →
  final_dosages (map fst rounds) = Ok (map snd rounds).
Proof.
  induction 1 as [|p [r t] ps rounds Hp _ IH]; [reflexivity|].
  simpl. destruct (dosage_record_keys p r t Hp) as (-> & _).
  unfold bind, outcome_bind. rewrite IH. reflexivity.
Qed.

Lemma calculate_all_dosages_rounds (patients rs : list pyval) (total : pyval) :
  calculate_all_dosages patients = Ok (rs, total) →
  ∃ rounds : list (pyval * pyval),
    Forall2 (λ p o, dosage_record p = Ok o) patients rounds ∧
    rs = map fst rounds ∧
    sum_from (PyInt 0) (map snd rounds) = Ok total.
Proof.
  intros H. apply dosage_loop_rounds in H as (rounds & Hall & -> & Hsum).
  exists rounds. auto.
Qed.

(** C5. For a request whose weight is a number and whose medication is text
    (or any other hashable value, or absent), [calculate_dosage] evaluates
    [weight * factor], with the factor of the table or 0, and returns the
    product, doubled exactly when [is_first_dose] is true and the medication
    takes a loading dose.  When the weight has a float value the product
    exists, so a dosage is returned. *)
Theorem calculate_dosage_formula (d : dict) (w : pyval) :
  dict_get "weight" d = Some w →
  is_number w = true →
  hashable (medication_of d) = true →
  calculate_dosage (PyDict d) =
    (base <- py_mul w (factor_of (medication_of d));;
     Ok (if loading_dose_applies d then doubled base else base)) ∧
  (has_float_value w = true →
   ∃ base, py_mul w (factor_of (medication_of d)) = Ok base ∧
           calculate_dosage (PyDict d) =
             Ok (if loading_dose_applies d then doubled base else base)).
Proof.
  intros Hw Hnum Hhash.
  pose proof (calculate_dosage_eq d w Hw Hnum Hhash) as Heq.
  split; [exact Heq|]. intros Hfloat.
  destruct (mul_has_float_value w _ Hfloat (factor_of_cases (medication_of d)))
    as [base Hbase].
  exists base. split; [exact Hbase|].
  rewrite Heq, Hbase. reflexivity.
Qed.

Lemma calculate_dosage_formula_witness :
  calculate_dosage (dosage_request (PyInt 70) "amiodarone" true)
    = Ok (PyFloat 700%float) ∧
  ∃ base, py_mul (PyInt 70) (PyFloat 5%float) = Ok base ∧
          calculate_dosage (dosage_request (PyInt 70) "amiodarone" true)
            = Ok (doubled base).
Proof.
  destruct (calculate_dosage_formula
              [("name", PyStr "John Smith"); ("weight", PyInt 70);
               ("medication", PyStr "amiodarone"); ("is_first_dose", PyBool true)]
              (PyInt 70) eq_refl eq_refl eq_refl) as [Heq Hval].
  split; [exact Heq|exact (Hval eq_refl)].
Defined.

Lemma mul_is_dose (w factor base : pyval) :
  has_float_value w = true →
  (∃ f, factor = PyFloat f) ∨ factor = PyInt 0 →
  py_mul w factor = Ok base → is_dose base = true.
Proof.
  destruct w as [| |n|x| | |]; simpl; try discriminate.
  - destruct (float_of_Z n) as [y|] eqn:E; [|discriminate].
    intros _ [[f ->]| ->]; unfold py_mul, num_binop; simpl; unbind.
    + rewrite E. simpl. intros [= <-]. reflexivity.
    + intros [= <-]. simpl. apply Z.eqb_eq. lia.
  - intros _ [[f ->]| ->]; unfold py_mul, num_binop; simpl; unbind;
      intros [= <-]; reflexivity.
Qed.

Lemma doubled_is_dose (v : pyval) : is_dose v = true → is_dose (doubled v) = true.
Proof.
  destruct v as [| |n|x| | |]; simpl; try discriminate; [|reflexivity].
  intros H. apply Z.eqb_eq in H. subst n. reflexivity.
Qed.

Lemma add_doses (a b : pyval) :
  is_dose a = true → is_dose b = true →
  ∃ c, py_add a b = Ok c ∧ is_dose c = true.
Proof.
  destruct a as [| |m|x| | |], b as [| |n|y| | |]; simpl; try discriminate;
    intros Ha Hb; try apply Z.eqb_eq in Ha; try apply Z.eqb_eq in Hb; subst;
    eexists; (split; [reflexivity|reflexivity]).
Qed.

(** A well-formed request gets a record and a dosage. *)
Lemma dosage_record_returns (p : pyval) :
  well_formed_request p = true →
  ∃ r t, dosage_record p = Ok (r, t) ∧ is_dose t = true.
Proof.
  destruct p as [| | | | | |d]; try discriminate. simpl.
  destruct (dict_get "weight" d) as [w|] eqn:Hw; [|discriminate].
  intros H. apply andb_true_iff in H as [Hfloat Hhash].
  assert (is_number w = true) as Hnum by (destruct w; try discriminate; reflexivity).
  destruct (mul_has_float_value w _ Hfloat (factor_of_cases (medication_of d)))
    as [base Hbase].
  pose proof (calculate_dosage_eq d w Hw Hnum Hhash) as Hcalc.
  rewrite Hbase in Hcalc. unfold bind, outcome_bind in Hcalc.
  pose proof (mul_is_dose _ _ _ Hfloat (factor_of_cases _) Hbase) as Hdose.
  assert (medication_of (dict_set "final_dosage"
            (if loading_dose_applies d then doubled base else base)
            (dict_set "dosage"
               (if loading_dose_applies d then doubled base else base) d))
          = medication_of d) as Hmed.
  { unfold medication_of. rewrite !dict_get_set. reflexivity. }
  unfold dosage_record, py_copy, bind at 1, outcome_bind.
  rewrite Hcalc. unfold bind, outcome_bind, py_setitem, py_get.
  rewrite !dict_get_set. cbv beta iota.
  change (if "weight" =? "final_dosage" then _ else
          if "weight" =? "dosage" then _ else dict_get "weight" d)
    with (dict_get "weight" d).
  rewrite Hw.
  change (if "medication" =? "final_dosage" then _ else
          if "medication" =? "dosage" then _ else dict_get "medication" d)
    with (dict_get "medication" d).
  replace (match dict_get "medication" d with
           | Some v => Ok v
           | None => Ok PyNone
           end) with (@Ok pyval (medication_of d))
    by (unfold medication_of; destruct (dict_get "medication" d); reflexivity).
  rewrite (factors_get_hashable _ Hhash), Hbase.
  eexists _, _. split; [reflexivity|].
  destruct (loading_dose_applies d); [apply doubled_is_dose|]; exact Hdose.
Qed.

Lemma dosage_loop_returns (patients : list pyval) :
  Forall (λ p, well_formed_request p = true) patients →
  ∀ (total : pyval) (acc : list pyval), is_dose total = true →
    ∃ rs total', dosage_loop patients total acc = Ok (rs, total').
Proof.
  induction 1 as [|p ps Hp _ IH]; intros total acc Htotal; simpl; [eauto|].
  destruct (dosage_record_returns p Hp) as (r & t & -> & Ht).
  unfold bind at 1, outcome_bind. simpl.
  destruct (add_doses total t Htotal Ht) as (c & -> & Hc).
  unfold bind, outcome_bind. apply IH. exact Hc.
Qed.

(** On well-formed requests [calculate_all_dosages] returns. *)
Lemma calculate_all_dosages_returns (patients : list pyval) :
  Forall (λ p, well_formed_request p = true) patients →
  ∃ rs total, calculate_all_dosages patients = Ok (rs, total).
Proof.
  intros H. apply dosage_loop_returns; [exact H|reflexivity].
Qed.

(** C6. The total that [calculate_all_dosages] returns is the sum of the
    [final_dosage] values of the returned records, added one by one from 0
    in the order of the records, which is the order of the input; for the
    empty input the total is 0. *)
Theorem total_is_sum_of_final_dosages :
  calculate_all_dosages [] = Ok ([], PyInt 0) ∧
  ∀ (patients rs : list pyval) (total : pyval),
    calculate_all_dosages patients = Ok (rs, total) →
    Forall2 (λ p r, ∃ t, dosage_record p = Ok (r, t)) patients rs ∧
    ∃ xs, final_dosages rs = Ok xs ∧ sum_from (PyInt 0) xs = Ok total.
Proof.
  split; [reflexivity|]. intros patients rs total H.
  apply calculate_all_dosages_rounds in H as (rounds & Hall & -> & Hsum).
  split.
  - clear Hsum. induction Hall as [|p [r t] ps rounds Hp _ IH]; simpl.
    + constructor.
    + constructor; [exists t; exact Hp|exact IH].
  - exists (map snd rounds). split; [|exact Hsum].
    eapply final_dosages_rounds. exact Hall.
Qed.

Lemma total_is_sum_of_final_dosages_witness :
  ∃ rs xs,
    calculate_all_dosages three_requests
      = Ok (rs, PyFloat 700.05550000000005%float) ∧
    final_dosages rs = Ok xs ∧
    sum_from (PyInt 0) xs = Ok (PyFloat 700.05550000000005%float).
Proof.
  destruct total_is_sum_of_final_dosages as [_ H].
  destruct (calculate_all_dosages three_requests) as [[rs total]|e] eqn:E.
  - pose proof E as E'. vm_compute in E'. injection E' as <- <-.
    destruct (H _ _ _ E) as (_ & xs & Hx & Hs).
    eexists _, xs. repeat split; [exact Hx|exact Hs].
  - vm_compute in E. discriminate E.
Defined.


(** C7. No round of the loop assigns [loading_dose_applied]: a returned
    record has that key exactly when the request itself carried it, with the
    request's value.  For a first dose of amiodarone the dosage is doubled
    and the record has no [loading_dose_applied] key. *)
Theorem loading_dose_applied_is_not_recorded (patients rs : list pyval)
    (total : pyval) :
  calculate_all_dosages patients = Ok (rs, total) →
  Forall2 (λ p r, py_getitem r "loading_dose_applied"
                    = py_getitem p "loading_dose_applied") patients rs.
Proof.
  intros H. apply calculate_all_dosages_rounds in H as (rounds & Hall & -> & _).
  induction Hall as [|p [r t] ps rounds Hp _ IH]; simpl; constructor.
  - apply (dosage_record_keys p r t Hp).
  - exact IH.
Qed.

Lemma loading_dose_applied_is_not_recorded_witness :
  calculate_all_dosages [dosage_request (PyInt 70) "amiodarone" true]
    = Ok ([amiodarone_first_dose_record], PyFloat 700%float) ∧
  py_getitem amiodarone_first_dose_record "loading_dose_applied" = Raise KeyError.
Proof.
  assert (calculate_all_dosages [dosage_request (PyInt 70) "amiodarone" true]
          = Ok ([amiodarone_first_dose_record], PyFloat 700%float)) as E.
  { vm_compute. reflexivity. }
  split; [exact E|].
  pose proof (loading_dose_applied_is_not_recorded _ _ _ E) as H.
  apply Forall2_cons_1 in H as [H _]. rewrite H. reflexivity.
Defined.

(** C10. Every returned record has a [dosage] key, and its value is the
    record's [final_dosage]. *)
Theorem dosage_equals_final_dosage (patients rs : list pyval) (total : pyval) :
  calculate_all_dosages patients = Ok (rs, total) →
  Forall (λ r, ∃ v, py_getitem r "dosage" = Ok v ∧
                    py_getitem r "final_dosage" = Ok v) rs.
Proof.
  intros H. apply calculate_all_dosages_rounds in H as (rounds & Hall & -> & _).
  induction Hall as [|p [r t] ps rounds Hp _ IH]; simpl; constructor.
  - exists t. destruct (dosage_record_keys p r t Hp) as (Hf & Hd & _). auto.
  - exact IH.
Qed.

Lemma dosage_equals_final_dosage_witness :
  ∃ rs total,
    calculate_all_dosages three_requests = Ok (rs, total) ∧
    length rs = 3%nat ∧
    Forall (λ r, ∃ v, py_getitem r "dosage" = Ok v ∧
                      py_getitem r "final_dosage" = Ok v) rs.
Proof.
  eexists _, _. split; [vm_compute; reflexivity|]. split; [reflexivity|].
  apply (dosage_equals_final_dosage three_requests _ _ eq_refl).
Defined.

End DosageFacts.

(** ** Further facts about the patient cleaner *)
Module CleanerExtras.
Import Py PatientCleaner Samples Text PyFacts CleanerFacts.
#[local] Open Scope string_scope.

Lemma case_of_cased (c : ascii) :
  is_cased (to_upper c) = is_cased c ∧ is_cased (to_lower c) = is_cased c ∧
  to_upper (to_upper c) = to_upper c ∧ to_lower (to_lower c) = to_lower c ∧
  to_lower (to_upper c) = to_lower c ∧ to_upper (to_lower c) = to_upper c.
Proof.
  destruct c as [[] [] [] [] [] [] [] []]; vm_compute; repeat split.
Qed.

Lemma title_from_idempotent (b : bool) (s : string) :
  title_from b (title_from b s) = title_from b s.
Proof.
  revert b. induction s as [|c s IH]; intros b; [reflexivity|]. simpl.
  destruct (case_of_cased c) as (Hu & Hl & Huu & Hll & _).
  destruct b.
  - rewrite Hl, Hll, IH. reflexivity.
  - rewrite Hu, Huu, IH. reflexivity.
Qed.

Lemma title_from_lower (b : bool) (s : string) :
  str_lower (title_from b s) = str_lower s.
Proof.
  revert b. induction s as [|c s IH]; intros b; [reflexivity|]. simpl.
  destruct (case_of_cased c) as (_ & _ & _ & Hll & Hlu & _).
  rewrite IH. destruct b; [rewrite Hll|rewrite Hlu]; reflexivity.
Qed.

Lemma title_from_length (b : bool) (s : string) :
  String.length (title_from b s) = String.length s.
Proof.
  revert b. induction s as [|c s IH]; intros b; [reflexivity|].
  simpl. rewrite IH. reflexivity.
Qed.

(** X1. The call returns only for the empty list: when it returns, the
    input was empty, the value is [None] and no object was written. *)
Theorem clean_returns_only_on_empty_input (patients : list loc) (σ σ' : store)
    (v : pyval) :
  clean_patient_data patients σ = (Ok v, σ') →
  patients = [] ∧ v = PyNone ∧ σ' = σ.
Proof.
  intros H. pose proof (clean_patient_data_cases patients σ) as Hc.
  destruct patients as [|l rest].
  - rewrite Hc in H. injection H as <- <-. auto.
  - destruct Hc as [[e He]|(e & d & s & _ & _ & He)];
      rewrite He in H; discriminate H.
Qed.

Lemma clean_returns_only_on_empty_input_witness :
  ([] : list loc) = [] ∧ PyNone = PyNone ∧ all_records john = all_records john.
Proof.
  apply (clean_returns_only_on_empty_input [] (all_records john)
           (all_records john) PyNone).
  reflexivity.
Defined.

(** X2. Unless the first element is a dict with a text name, the call
    raises before it writes anything: [TypeError] for an element that is
    not a dict, [KeyError] for a dict without [name], [AttributeError] for a
    name that is not text. *)
Theorem clean_rejects_first_record (l : loc) (rest : list loc) (σ : store) :
  has_text_name (σ l) = false →
  clean_patient_data (l :: rest) σ =
    (Raise (match σ l with
            | PyDict d =>
                match dict_get "name" d with
                | None => KeyError
                | Some _ => AttributeError
                end
            | _ => TypeError
            end), σ).
Proof.
  intros H. unfold clean_patient_data, for_loop, loop_body, name_stmt.
  unfold bind, M_bind, load, lift. simpl.
  unfold has_text_name in H.
  destruct (σ l) as [| | | | | |d]; simpl; try reflexivity.
  destruct (dict_get "name" d) as [[| | | |s| |]|]; simpl;
    try reflexivity; discriminate H.
Qed.

Lemma clean_rejects_first_record_witness :
  clean_patient_data [0%nat] (all_records (PyDict [("age", PyStr "32")]))
    = (Raise KeyError, all_records (PyDict [("age", PyStr "32")])) ∧
  clean_patient_data [0%nat] (all_records (PyStr "john smith"))
    = (Raise TypeError, all_records (PyStr "john smith")) ∧
  clean_patient_data [0%nat] (all_records (PyDict [("name", PyInt 7)]))
    = (Raise AttributeError, all_records (PyDict [("name", PyInt 7)])).
Proof.
  split; [|split].
  - apply (clean_rejects_first_record 0%nat []
             (all_records (PyDict [("age", PyStr "32")]))). reflexivity.
  - apply (clean_rejects_first_record 0%nat []
             (all_records (PyStr "john smith"))). reflexivity.
  - apply (clean_rejects_first_record 0%nat []
             (all_records (PyDict [("name", PyInt 7)]))). reflexivity.
Defined.

(** X3. A first record with a text name and no [age] makes the call raise
    [KeyError], after the name has been rewritten in the caller's record. *)
Theorem clean_missing_age (l : loc) (rest : list loc) (σ : store) (d : dict)
    (s : string) :
  σ l = PyDict d →
  dict_get "name" d = Some (PyStr s) →
  dict_get "age" d = None →
  clean_patient_data (l :: rest) σ =
    (Raise KeyError, <[l := PyDict (dict_set "name" (PyStr (str_title s)) d)]> σ).
Proof.
  intros Hl Hn Ha.
  unfold clean_patient_data, for_loop, loop_body, bind, M_bind.
  rewrite (name_stmt_ok l σ d s Hl Hn).
  unfold age_stmt, bind, M_bind, load, lift.
  unfold insert at 1, fn_insert at 1. rewrite decide_True by reflexivity.
  unfold py_getitem. rewrite dict_get_set. simpl. rewrite Ha. reflexivity.
Qed.

Lemma clean_missing_age_witness :
  fst (clean_patient_data [0%nat]
         (all_records (PyDict [("name", PyStr "john smith")])))
    = Raise KeyError ∧
  snd (clean_patient_data [0%nat]
         (all_records (PyDict [("name", PyStr "john smith")]))) 0%nat
    = PyDict [("name", PyStr "John Smith")].
Proof.
  pose proof (clean_missing_age 0%nat []
                (all_records (PyDict [("name", PyStr "john smith")]))
                [("name", PyStr "john smith")] "john smith"
                eq_refl eq_refl eq_refl) as H.
  split; [exact (f_equal fst H)|exact (f_equal (λ r, snd r 0%nat) H)].
Defined.

(** X4. Only the first element of the input is ever processed: every
    object other than the one the first reference points to is unchanged by
    the call, whatever the rest of the list is. *)
Theorem clean_touches_only_the_first_record (l l' : loc) (rest : list loc)
    (σ : store) :
  l' ≠ l →
  snd (clean_patient_data (l :: rest) σ) l' = σ l'.
Proof.
  intros Hne.
  destruct (clean_patient_data_cases (l :: rest) σ)
    as [[e He]|(e & d & s & _ & _ & He)]; rewrite He; simpl; [reflexivity|].
  unfold insert, fn_insert. rewrite decide_False by congruence. reflexivity.
Qed.

Lemma clean_touches_only_the_first_record_witness :
  snd (clean_patient_data [0%nat; 1%nat] (all_records john)) 1%nat = john.
Proof.
  apply (clean_touches_only_the_first_record 0%nat 1%nat [1%nat]
           (all_records john)).
  discriminate.
Defined.

(** X5. On an ASCII name [str.title()] changes nothing but the case of
    letters: the result has the length of the input and the same lowercase
    form. *)
Theorem title_changes_only_case (s : string) :
  ascii_text s = true →
  String.length (str_title s) = String.length s ∧
  str_lower (str_title s) = str_lower s.
Proof.
  intros _. split; [apply title_from_length|apply title_from_lower].
Qed.

Lemma title_changes_only_case_witness :
  String.length (str_title "o'neil mc-donald") = 16%nat ∧
  str_lower (str_title "o'neil mc-donald") = "o'neil mc-donald".
Proof.
  apply (title_changes_only_case "o'neil mc-donald"). reflexivity.
Defined.

Lemma dict_set_twice (k : string) (v v' : pyval) (d : dict) :
  dict_set k v (dict_set k v' d) = dict_set k v d.
Proof.
  induction d as [|[k0 v0] d IH]; simpl.
  - rewrite String.eqb_refl. reflexivity.
  - destruct (String.eqb k k0) eqn:E; simpl; rewrite E; [reflexivity|].
    rewrite IH. reflexivity.
Qed.

(** X7. The age filter of lines 98-101 orders ages against 18 only when
    they are numbers: on a record whose age is text, as ages are in the JSON
    file, it raises [TypeError]; on a record without [age] it raises
    [KeyError].  When it returns, the records retained so far are kept, in
    order, with at most the current record added last. *)
Theorem filter_stmt_edges (patient : pyval) (cleaned : list pyval) :
  (∀ d s, patient = PyDict d → dict_get "age" d = Some (PyStr s) →
          filter_stmt patient cleaned = Raise TypeError) ∧
  (∀ d, patient = PyDict d → dict_get "age" d = None →
        filter_stmt patient cleaned = Raise KeyError) ∧
  (∀ cleaned', filter_stmt patient cleaned = Ok cleaned' →
               cleaned' = cleaned ∨ cleaned' = (cleaned ++ [patient])%list).
Proof.
  repeat split.
  - intros d s -> Ha. unfold filter_stmt, py_getitem. rewrite Ha. reflexivity.
  - intros d -> Ha. unfold filter_stmt, py_getitem. rewrite Ha. reflexivity.
  - intros cleaned'. unfold filter_stmt, bind, outcome_bind.
    destruct (py_getitem patient "age") as [age|e]; [|discriminate].
    destruct (py_gt_int age 18) as [[]|e]; [| |discriminate];
      intros [= <-]; auto.
Qed.

Lemma filter_stmt_edges_witness :
  filter_stmt john [] = Raise TypeError ∧
  filter_stmt (PyDict [("name", PyStr "A B")]) [] = Raise KeyError ∧
  (([adult18_normalized] : list pyval) = [adult18_normalized] ∨
   [adult18_normalized] = ([adult18_normalized] ++ [PyDict [("age", PyInt 3)]])%list).
Proof.
  split; [|split].
  - destruct (filter_stmt_edges john []) as (H & _ & _).
    exact (H _ "32" eq_refl eq_refl).
  - destruct (filter_stmt_edges (PyDict [("name", PyStr "A B")]) [])
      as (_ & H & _).
    exact (H _ eq_refl eq_refl).
  - destruct (filter_stmt_edges (PyDict [("age", PyInt 3)]) [adult18_normalized])
      as (_ & _ & H).
    exact (H _ eq_refl).
Defined.

(** X6. Name normalisation is idempotent on ASCII names: the title case of
    a title-cased name is that name again, and when the record's name is
    ASCII (or the object has no text name) running the name assignment of
    line 83 a second time changes no object. *)
Theorem name_stmt_idempotent :
  (∀ s : string, ascii_text s = true → str_title (str_title s) = str_title s) ∧
  (∀ (l l' : loc) (σ : store),
     ascii_name (σ l) = true →
     snd (name_stmt l (snd (name_stmt l σ))) l' = snd (name_stmt l σ) l').
Proof.
  split; [intros s _; apply title_from_idempotent|]. intros l l' σ _.
  destruct (name_stmt_cases l σ) as [[e He]|(d & s & Hl & Hn & He)].
  - rewrite He. simpl. rewrite He. reflexivity.
  - rewrite He. simpl.
    rewrite (name_stmt_ok l _ (dict_set "name" (PyStr (str_title s)) d)
               (str_title s)).
    + simpl. unfold insert, fn_insert.
      destruct (decide (l = l')) as [_|_]; [|reflexivity].
      unfold str_title. rewrite title_from_idempotent, dict_set_twice.
      reflexivity.
    + unfold insert, fn_insert. rewrite decide_True by reflexivity. reflexivity.
    + rewrite dict_get_set. reflexivity.
Qed.

Lemma name_stmt_idempotent_witness :
  str_title (str_title "JOHN o'neil") = str_title "JOHN o'neil" ∧
  snd (name_stmt 0%nat (snd (name_stmt 0%nat (all_records john)))) 0%nat
    = snd (name_stmt 0%nat (all_records john)) 0%nat.
Proof.
  destruct name_stmt_idempotent as [Hs Hσ]. split.
  - apply Hs. reflexivity.
  - apply (Hσ 0%nat 0%nat (all_records john)). reflexivity.
Defined.

End CleanerExtras.

(** ** Further facts about the dosage calculator *)
Module DosageExtras.
Import Py DosageCalculator Samples Text PyFacts DosageFacts.
#[local] Open Scope string_scope.

Lemma py_get_dict (d : dict) (k : string) (dflt : pyval) :
  py_get (PyDict d) k dflt = Ok (default dflt (dict_get k d)).
Proof. unfold py_get. destruct (dict_get k d); reflexivity. Qed.

(** [calculate_dosage] on a dict, with the lookups done. *)
Lemma calculate_dosage_dict (d : dict) :
  calculate_dosage (PyDict d) =
    (factor <- factors_get (medication_of d);;
     base <- py_mul (weight_of d) factor;;
     if loading_dose_applies d then py_mul base (PyInt 2) else Ok base).
Proof.
  unfold calculate_dosage, loading_dose_applies, first_dose.
  rewrite !py_get_dict. fold (medication_of d) (weight_of d).
  unfold bind, outcome_bind, py_copy. cbv beta iota.
  destruct (factors_get (medication_of d)) as [factor|e]; [|reflexivity].
  destruct (py_mul (weight_of d) factor) as [base|e]; [|reflexivity].
  destruct (truthy (default (PyBool false) (dict_get "is_first_dose" d)));
    reflexivity.
Qed.

(** One round of the loop on a dict, with the lookups done. *)
Lemma dosage_record_dict (d : dict) :
  dosage_record (PyDict d) =
    (t <- calculate_dosage (PyDict d);;
     factor <- factors_get (medication_of d);;
     base <- py_mul (weight_of d) factor;;
     Ok (PyDict (dict_set "warnings" (PyList (warnings_for (medication_of d)))
                  (dict_set "base_dosage" base
                    (dict_set "final_dosage" t (dict_set "dosage" t d)))),
         t)).
Proof.
  unfold dosage_record, py_copy, bind at 1, outcome_bind.
  unfold bind at 1 5, outcome_bind.
  destruct (calculate_dosage (PyDict d)) as [t|e]; [|reflexivity].
  unfold py_setitem, bind at 1 2, outcome_bind.
  rewrite !py_get_dict, !dict_get_set.
  change (if "weight" =? "final_dosage" then _ else
          if "weight" =? "dosage" then _ else dict_get "weight" d)
    with (dict_get "weight" d).
  change (if "medication" =? "final_dosage" then _ else
          if "medication" =? "dosage" then _ else dict_get "medication" d)
    with (dict_get "medication" d).
  fold (medication_of d) (weight_of d).
  unfold bind, outcome_bind.
  destruct (factors_get (medication_of d)) as [factor|e]; [|reflexivity].
  destruct (py_mul (weight_of d) factor) as [base|e]; reflexivity.
Qed.

Lemma mul_none (factor : pyval) :
  (∃ f, factor = PyFloat f) ∨ factor = PyInt 0 →
  py_mul PyNone factor = Raise TypeError.
Proof. intros [[f ->]| ->]; reflexivity. Qed.

(** X8. A request without a weight (or with a null weight) makes
    [calculate_dosage] raise [TypeError], whatever the medication, provided
    it is hashable: [None] is multiplied by the factor. *)
Theorem calculate_dosage_missing_weight (d : dict) :
  weight_of d = PyNone →
  hashable (medication_of d) = true →
  calculate_dosage (PyDict d) = Raise TypeError.
Proof.
  intros Hw Hhash. rewrite calculate_dosage_dict, Hw.
  rewrite (factors_get_hashable _ Hhash). unfold bind, outcome_bind.
  rewrite (mul_none _ (factor_of_cases (medication_of d))). reflexivity.
Qed.

Lemma calculate_dosage_missing_weight_witness :
  calculate_dosage (PyDict [("name", PyStr "John Smith");
                            ("medication", PyStr "epinephrine")])
    = Raise TypeError.
Proof.
  apply (calculate_dosage_missing_weight
           [("name", PyStr "John Smith"); ("medication", PyStr "epinephrine")]);
    reflexivity.
Defined.

(** X9. What is not a usable request is rejected before any arithmetic:
    a request that is not a dict raises [AttributeError], and a medication
    that is a list or a dict raises [TypeError], whatever the weight. *)
Theorem calculate_dosage_rejects (p : pyval) :
  (match p with PyDict _ => False | _ => True end →
   calculate_dosage p = Raise AttributeError) ∧
  (∀ d, p = PyDict d → hashable (medication_of d) = false →
        calculate_dosage p = Raise TypeError).
Proof.
  split.
  - destruct p; intros H; try reflexivity. destruct H.
  - intros d -> H. rewrite calculate_dosage_dict.
    destruct (medication_of d); try discriminate H; reflexivity.
Qed.

Lemma calculate_dosage_rejects_witness :
  calculate_dosage (PyList [PyInt 70; PyStr "epinephrine"]) = Raise AttributeError ∧
  calculate_dosage (PyDict [("weight", PyInt 70);
                            ("medication", PyList [PyStr "epinephrine"])])
    = Raise TypeError.
Proof.
  split.
  - apply (calculate_dosage_rejects (PyList [PyInt 70; PyStr "epinephrine"])).
    exact I.
  - apply (calculate_dosage_rejects
             (PyDict [("weight", PyInt 70);
                      ("medication", PyList [PyStr "epinephrine"])])
             ) with (d := [("weight", PyInt 70);
                           ("medication", PyList [PyStr "epinephrine"])]);
      reflexivity.
Defined.

(** X10. A weight given as text is not always an error.  With a medication
    of the table the product raises [TypeError]; with an unknown medication
    the factor is the int 0 and the "dosage" is the empty string, first dose
    or not. *)
Theorem calculate_dosage_text_weight (d : dict) (w : string) :
  weight_of d = PyStr w →
  hashable (medication_of d) = true →
  calculate_dosage (PyDict d) =
    match factor_of (medication_of d) with
    | PyInt _ => Ok (PyStr "")
    | _ => Raise TypeError
    end.
Proof.
  intros Hw Hhash. rewrite calculate_dosage_dict, Hw.
  rewrite (factors_get_hashable _ Hhash). unfold bind, outcome_bind.
  destruct (factor_of_cases (medication_of d)) as [[f Hf]|Hf].
  - rewrite Hf. reflexivity.
  - rewrite Hf. unfold loading_dose_applies.
    destruct (py_in_strs (medication_of d) LOADING_DOSE_MEDICATIONS) eqn:Hin.
    + destruct (loading_factor_is_float _ Hin) as [f Hf']. congruence.
    + rewrite andb_false_r. reflexivity.
Qed.

Lemma calculate_dosage_text_weight_witness :
  calculate_dosage (PyDict [("weight", PyStr "70"); ("medication", PyStr "aspirin")])
    = Ok (PyStr "") ∧
  calculate_dosage (PyDict [("weight", PyStr "70"); ("medication", PyStr "fentanyl")])
    = Raise TypeError.
Proof.
  split.
  - apply (calculate_dosage_text_weight
             [("weight", PyStr "70"); ("medication", PyStr "aspirin")] "70");
      reflexivity.
  - apply (calculate_dosage_text_weight
             [("weight", PyStr "70"); ("medication", PyStr "fentanyl")] "70");
      reflexivity.
Defined.

(** X11. An unknown or absent medication with an int weight gives the int 0
    exactly, whatever [is_first_dose] says: no loading dose applies to a
    medication outside the table. *)
Theorem calculate_dosage_unknown_medication (d : dict) (n : Z) :
  weight_of d = PyInt n →
  hashable (medication_of d) = true →
  factor_of (medication_of d) = PyInt 0 →
  loading_dose_applies d = false ∧
  warnings_for (medication_of d) = [] ∧
  calculate_dosage (PyDict d) = Ok (PyInt 0).
Proof.
  intros Hw Hhash Hf.
  assert (py_in_strs (medication_of d) LOADING_DOSE_MEDICATIONS = false) as Hin.
  { destruct (py_in_strs (medication_of d) LOADING_DOSE_MEDICATIONS) eqn:Hin;
      [|reflexivity].
    destruct (loading_factor_is_float _ Hin) as [f Hf']. congruence. }
  assert (loading_dose_applies d = false) as Hload.
  { unfold loading_dose_applies. rewrite Hin. apply andb_false_r. }
  repeat split; [exact Hload| |].
  - unfold warnings_for. destruct (medication_of d) as [| | | |m| |];
      try reflexivity.
    unfold factor_of in Hf. unfold py_eq_str.
    destruct (String.eqb m "epinephrine") eqn:E1;
      [apply String.eqb_eq in E1; subst m; discriminate Hf|].
    destruct (String.eqb m "amiodarone") eqn:E2;
      [apply String.eqb_eq in E2; subst m; discriminate Hf|].
    destruct (String.eqb m "fentanyl") eqn:E3;
      [apply String.eqb_eq in E3; subst m; discriminate Hf|].
    reflexivity.
  - rewrite calculate_dosage_dict, Hw, (factors_get_hashable _ Hhash), Hf, Hload.
    unfold bind, outcome_bind, py_mul, num_binop. simpl.
    rewrite Z.mul_0_r. reflexivity.
Qed.

Lemma calculate_dosage_unknown_medication_witness :
  calculate_dosage (dosage_request (PyInt 70) "aspirin" true) = Ok (PyInt 0).
Proof.
  apply (calculate_dosage_unknown_medication
           [("name", PyStr "John Smith"); ("weight", PyInt 70);
            ("medication", PyStr "aspirin"); ("is_first_dose", PyBool true)]
           70 eq_refl eq_refl eq_refl).
Defined.

(** X23. The dosage depends on nothing but the weight, the medication and
    the truth value of [is_first_dose]: two requests that agree on these get
    the same result, exception included, whatever their name, condition,
    allergies or other fields are. *)
Theorem calculate_dosage_ignores_other_fields (d d' : dict) :
  weight_of d = weight_of d' →
  medication_of d = medication_of d' →
  first_dose d = first_dose d' →
  calculate_dosage (PyDict d) = calculate_dosage (PyDict d').
Proof.
  intros Hw Hm Hf. rewrite !calculate_dosage_dict.
  unfold loading_dose_applies. rewrite Hw, Hm, Hf. reflexivity.
Qed.

Lemma calculate_dosage_ignores_other_fields_witness :
  calculate_dosage
    (PyDict [("name", PyStr "A"); ("weight", PyInt 70);
             ("medication", PyStr "lorazepam"); ("is_first_dose", PyInt 1);
             ("allergies", PyList [PyStr "lorazepam"])])
  = calculate_dosage (dosage_request (PyInt 70) "lorazepam" true).
Proof.
  apply (calculate_dosage_ignores_other_fields
           [("name", PyStr "A"); ("weight", PyInt 70);
            ("medication", PyStr "lorazepam"); ("is_first_dose", PyInt 1);
            ("allergies", PyList [PyStr "lorazepam"])]
           [("name", PyStr "John Smith"); ("weight", PyInt 70);
            ("medication", PyStr "lorazepam"); ("is_first_dose", PyBool true)]);
    reflexivity.
Defined.

(** What one successful round of the loop produces. *)
Lemma dosage_record_values (p r t : pyval) :
  dosage_record p = Ok (r, t) →
  ∃ d base,
    p = PyDict d ∧
    calculate_dosage p = Ok t ∧
    py_mul (weight_of d) (factor_of (medication_of d)) = Ok base ∧
    r = PyDict (dict_set "warnings" (PyList (warnings_for (medication_of d)))
                 (dict_set "base_dosage" base
                   (dict_set "final_dosage" t (dict_set "dosage" t d)))).
Proof.
  intros H. destruct (dosage_record_shape p r t H) as (d & _ & _ & -> & _ & _).
  rewrite dosage_record_dict in H. unfold bind, outcome_bind in H.
  destruct (calculate_dosage (PyDict d)) as [t'|e]; [|discriminate H].
  destruct (factors_get (medication_of d)) as [factor|e] eqn:Hf;
    [|discriminate H].
  destruct (py_mul (weight_of d) factor) as [base|e] eqn:Hm; [|discriminate H].
  injection H as <- <-. exists d, base. repeat split.
  assert (hashable (medication_of d) = true) as Hhash.
  { destruct (medication_of d); try reflexivity; discriminate Hf. }
  rewrite (factors_get_hashable _ Hhash) in Hf. injection Hf as <-. exact Hm.
Qed.

Lemma rounds_records (patients : list pyval) (rounds : list (pyval * pyval))
    (R : pyval → pyval → Prop) :
  (∀ p r t, dosage_record p = Ok (r, t) → R p r) →
  Forall2 (λ p o, dosage_record p = Ok o) patients rounds →
  Forall2 R patients (map fst rounds).
Proof.
  intros HR. induction 1 as [|p [r t] ps rounds Hp _ IH]; simpl; constructor.
  - exact (HR p r t Hp).
  - exact IH.
Qed.

(** X12. The batch returns one record per request, in order, and a record
    agrees with its request on every key other than the four that the loop
    assigns ([dosage], [final_dosage], [base_dosage], [warnings]): the input
    fields are carried over. *)
Theorem records_carry_the_request_fields (patients rs : list pyval)
    (total : pyval) :
  calculate_all_dosages patients = Ok (rs, total) →
  length rs = length patients ∧
  Forall2 (λ p r, ∀ k, assigned_key k = false →
                       py_getitem r k = py_getitem p k) patients rs.
Proof.
  intros H. apply calculate_all_dosages_rounds in H as (rounds & Hall & -> & _).
  split.
  - rewrite length_map. symmetry. eapply Forall2_length. exact Hall.
  - eapply rounds_records; [|exact Hall].
    intros p r t Hp k Hk.
    destruct (dosage_record_values p r t Hp) as (d & base & -> & _ & _ & ->).
    unfold assigned_key in Hk.
    repeat (apply orb_false_iff in Hk as [Hk ?]).
    rewrite !getitem_setitem.
    repeat match goal with H : String.eqb k _ = false |- _ => rewrite H; clear H end.
    reflexivity.
Qed.

Lemma records_carry_the_request_fields_witness :
  ∃ rs total,
    calculate_all_dosages three_requests = Ok (rs, total) ∧
    length rs = 3%nat ∧
    Forall2 (λ p r, py_getitem r "name" = py_getitem p "name") three_requests rs.
Proof.
  destruct (calculate_all_dosages three_requests) as [[rs total]|e] eqn:E.
  - destruct (records_carry_the_request_fields _ _ _ E) as [Hlen Hall].
    exists rs, total. repeat split; [exact Hlen|].
    eapply List.Forall2_impl; [|exact Hall].
    intros p r Hk. apply Hk. reflexivity.
  - vm_compute in E. discriminate E.
Defined.

(** X13. In every returned record [final_dosage] is what [calculate_dosage]
    returns for the request, [base_dosage] is the product of the request's
    weight and its factor, and [warnings] is the advisory list of the
    request's medication. *)
Theorem records_hold_the_computed_values (patients rs : list pyval)
    (total : pyval) :
  calculate_all_dosages patients = Ok (rs, total) →
  Forall2 (λ p r, ∃ d,
             p = PyDict d ∧
             calculate_dosage p = py_getitem r "final_dosage" ∧
             py_mul (weight_of d) (factor_of (medication_of d))
               = py_getitem r "base_dosage" ∧
             py_getitem r "warnings"
               = Ok (PyList (warnings_for (medication_of d)))) patients rs.
Proof.
  intros H. apply calculate_all_dosages_rounds in H as (rounds & Hall & -> & _).
  eapply rounds_records; [|exact Hall].
  intros p r t Hp.
  destruct (dosage_record_values p r t Hp) as (d & base & -> & Hc & Hb & ->).
  exists d. rewrite !getitem_setitem. simpl. auto.
Qed.

Lemma records_hold_the_computed_values_witness :
  Forall2 (λ p r, ∃ d,
             p = PyDict d ∧
             calculate_dosage p = py_getitem r "final_dosage" ∧
             py_mul (weight_of d) (factor_of (medication_of d))
               = py_getitem r "base_dosage" ∧
             py_getitem r "warnings"
               = Ok (PyList (warnings_for (medication_of d))))
    [dosage_request (PyInt 70) "amiodarone" true]
    [amiodarone_first_dose_record].
Proof.
  apply (records_hold_the_computed_values
           [dosage_request (PyInt 70) "amiodarone" true]
           [amiodarone_first_dose_record] (PyFloat 700%float)).
  vm_compute. reflexivity.
Defined.

(** A request on which [calculate_dosage] raises keeps the batch from
    returning. *)
Lemma batch_fails_on_bad_request (patients : list pyval) (p : pyval) (e : exn) :
  p ∈ patients →
  calculate_dosage p = Raise e →
  is_ok (calculate_all_dosages patients) = false.
Proof.
  intros Hin Hp.
  destruct (calculate_all_dosages patients) as [[rs total]|e'] eqn:E;
    [|reflexivity].
  exfalso.
  apply calculate_all_dosages_rounds in E as (rounds & Hall & _ & _).
  clear rs total. induction Hall as [|q [r t] ps rounds Hq _ IH].
  - inversion Hin.
  - apply elem_of_cons in Hin as [->|Hin]; [|exact (IH Hin)].
    destruct (dosage_record_values q r t Hq) as (_ & _ & _ & Hc & _).
    congruence.
Qed.

(** X14. One bad request fails the whole batch: if [calculate_dosage]
    raises on some request of the list, [calculate_all_dosages] raises and
    returns no record at all. *)
Theorem one_bad_request_fails_the_batch (patients : list pyval) (p : pyval)
    (e : exn) :
  p ∈ patients →
  calculate_dosage p = Raise e →
  is_ok (calculate_all_dosages patients) = false.
Proof. apply batch_fails_on_bad_request. Qed.

Lemma one_bad_request_fails_the_batch_witness :
  is_ok (calculate_all_dosages
           [dosage_request (PyInt 70) "amiodarone" true;
            PyDict [("name", PyStr "No Weight"); ("medication", PyStr "fentanyl")]])
    = false.
Proof.
  apply (one_bad_request_fails_the_batch _
           (PyDict [("name", PyStr "No Weight"); ("medication", PyStr "fentanyl")])
           TypeError).
  - apply elem_of_cons. right. apply elem_of_cons. left. reflexivity.
  - reflexivity.
Defined.

(** X15. A text weight with an unknown medication gets past
    [calculate_dosage], which returns the empty string, and fails the batch
    one step later: adding the string to the numeric total raises
    [TypeError]. *)
Theorem text_weight_fails_at_the_total (d : dict) (w : string)
    (rest : list pyval) :
  weight_of d = PyStr w →
  hashable (medication_of d) = true →
  factor_of (medication_of d) = PyInt 0 →
  calculate_dosage (PyDict d) = Ok (PyStr "") ∧
  calculate_all_dosages (PyDict d :: rest) = Raise TypeError.
Proof.
  intros Hw Hhash Hf.
  assert (calculate_dosage (PyDict d) = Ok (PyStr "")) as Hc.
  { rewrite calculate_dosage_dict, Hw, (factors_get_hashable _ Hhash), Hf.
    unfold loading_dose_applies.
    destruct (py_in_strs (medication_of d) LOADING_DOSE_MEDICATIONS) eqn:Hin.
    - destruct (loading_factor_is_float _ Hin) as [f Hf']. congruence.
    - rewrite andb_false_r. reflexivity. }
  split; [exact Hc|].
  unfold calculate_all_dosages, dosage_loop.
  rewrite dosage_record_dict, Hc, Hw, (factors_get_hashable _ Hhash), Hf.
  reflexivity.
Qed.

Lemma text_weight_fails_at_the_total_witness :
  calculate_dosage (PyDict [("weight", PyStr "70"); ("medication", PyStr "aspirin")])
    = Ok (PyStr "") ∧
  calculate_all_dosages
    [PyDict [("weight", PyStr "70"); ("medication", PyStr "aspirin")]]
    = Raise TypeError.
Proof.
  apply (text_weight_fails_at_the_total
           [("weight", PyStr "70"); ("medication", PyStr "aspirin")] "70" []);
    reflexivity.
Defined.

Lemma dosage_loop_returns_dose (patients : list pyval) :
  Forall (λ p, well_formed_request p = true) patients →
  ∀ (total : pyval) (acc : list pyval), is_dose total = true →
    ∃ rs total', dosage_loop patients total acc = Ok (rs, total') ∧
                 is_dose total' = true.
Proof.
  induction 1 as [|p ps Hp _ IH]; intros total acc Htotal; simpl; [eauto|].
  destruct (dosage_record_returns p Hp) as (r & t & -> & Ht).
  unfold bind at 1, outcome_bind. simpl.
  destruct (add_doses total t Htotal Ht) as (c & -> & Hc).
  unfold bind, outcome_bind. apply IH. exact Hc.
Qed.

(** X17. When every request is a dict whose weight is a float, or an int
    with a float value, and whose medication is hashable, the batch returns:
    one record per request, and a total that is a float or the int 0. *)
Theorem well_formed_batch_returns (patients : list pyval) :
  Forall (λ p, well_formed_request p = true) patients →
  ∃ rs total,
    calculate_all_dosages patients = Ok (rs, total) ∧
    length rs = length patients ∧
    is_dose total = true.
Proof.
  intros H.
  destruct (dosage_loop_returns_dose patients H (PyInt 0) [] eq_refl)
    as (rs & total & E & Hdose).
  exists rs, total. repeat split; [exact E| |exact Hdose].
  apply calculate_all_dosages_rounds in E as (rounds & Hall & -> & _).
  rewrite length_map. symmetry. eapply Forall2_length. exact Hall.
Qed.

Lemma well_formed_batch_returns_witness :
  ∃ rs total,
    calculate_all_dosages three_requests = Ok (rs, total) ∧
    length rs = length three_requests ∧
    is_dose total = true.
Proof.
  apply (well_formed_batch_returns three_requests).
  repeat constructor.
Defined.

End DosageExtras.

(** ** Facts about the scripts' [main] functions *)
Module ScriptFacts.
Import Py PatientCleaner DosageCalculator Samples Text Scripts.
Import PyFacts CleanerFacts DosageFacts DosageExtras.
#[local] Open Scope string_scope.

Ltac script := unfold bind, Script_bind, done, eval, try_result.

Lemma for_each_print (lines out : list string) :
  for_each print lines out = (Done tt, (out ++ lines)%list).
Proof.
  revert out. induction lines as [|x lines IH]; intros out; simpl.
  - unfold done. rewrite app_nil_r. reflexivity.
  - script. unfold print at 1. rewrite IH, <- app_assoc. reflexivity.
Qed.

(** On a loaded value the cleaner returns [None] when there is nothing to
    iterate over, and raises otherwise. *)
Lemma clean_loaded_cases (v : pyval) :
  (clean_loaded v = Ok PyNone ∧ py_iter v = Ok []) ∨
  (∃ e, clean_loaded v = Raise e ∧ py_iter v ≠ Ok []).
Proof.
  unfold clean_loaded, bind, outcome_bind.
  destruct (py_iter v) as [[|x items]|e].
  - left. split; reflexivity.
  - right. cbv beta iota.
    change (seq 0%nat (length (x :: items)))
      with (0%nat :: seq 1%nat (length items)).
    destruct (clean_patient_data_cases (0%nat :: seq 1%nat (length items))
                (store_of (x :: items)))
      as [[e He]|(e & d & s & _ & _ & He)]; exists e; rewrite He;
      split; try reflexivity; discriminate.
  - right. exists e. split; [reflexivity|discriminate].
Qed.

Section Reports.
Variable str_other : pyval → result string.

(** X18. Script 1 never reports a patient.  Whatever the data file holds,
    [main] prints nothing but the loader's failure message; it returns
    [None] when loading failed or the file holds nothing to iterate over (an
    empty array, object or string), and ends with an exception for every
    other content, a non-empty array of patient records included. *)
Theorem cleaner_main_never_reports (file : file_read) :
  ∃ r, cleaner_main str_other file [] = (r, snd (load_patient_data file)) ∧
       ((r = Done PyNone ∧ py_iter (fst (load_patient_data file)) = Ok []) ∨
        (∃ e, r = Failed (Builtin e) ∧
              py_iter (fst (load_patient_data file)) ≠ Ok [])).
Proof.
  unfold cleaner_main. script. rewrite for_each_print. simpl.
  destruct (clean_loaded_cases (fst (load_patient_data file)))
    as [[Hc Hi]|(e & Hc & Hi)]; rewrite Hc; simpl.
  - eexists. split; [reflexivity|]. left. auto.
  - eexists. split; [reflexivity|]. right. eauto.
Qed.

(** X19. Script 2 on a missing, unreadable or empty data file: [main]
    prints the loader's message (if loading failed), the "no patient data"
    error, the report header and a total of 0.00 mg, and returns an empty
    list with total 0; it does not stop at the error. *)
Theorem dosage_main_without_data (file : file_read) :
  fst (load_patient_data file) = PyList [] →
  dosage_main str_other file [] =
    (Done ([], PyInt 0),
     (snd (load_patient_data file) ++
      ["Error loading patient data: No patient data found.";
       "Medication Dosages:";
       (newline ++ "Total medication needed: 0.00 mg")%string])%list).
Proof.
  intros Hv. unfold dosage_main. script. rewrite for_each_print, Hv. simpl.
  unfold print. simpl. rewrite <- !app_assoc. reflexivity.
Qed.

(** X20. One bad request and script 2 reports nothing: if
    [calculate_dosage] raises on a request of the loaded list, [main] ends
    with an exception before it prints the report header or any record. *)
Theorem dosage_main_bad_request (items : list pyval) (p x : pyval) (e : exn) :
  p ∈ x :: items →
  calculate_dosage p = Raise e →
  ∃ e', dosage_main str_other (Loaded (PyList (x :: items))) []
          = (Failed (Builtin e'), []).
Proof.
  intros Hin Hp.
  pose proof (batch_fails_on_bad_request (x :: items) p e Hin Hp) as Hbad.
  unfold dosage_main. script. simpl. unfold dosages_loaded.
  unfold bind at 1, outcome_bind. simpl py_iter. cbv beta iota.
  destruct (calculate_all_dosages (x :: items)) as [r|e']; [discriminate Hbad|].
  exists e'. reflexivity.
Qed.

(** *** What the report never prints *)

Lemma keeps_bind {A B} (P : string → Prop) (m : Script A) (k : A → Script B) :
  keeps P m →
  (∀ a out out', m out = (Done a, out') → keeps P (k a)) →
  keeps P (x <- m;; k x).
Proof.
  intros Hm Hk out Hout. unfold bind, Script_bind.
  pose proof (Hm out Hout) as H1.
  destruct (m out) as [[a|e] out'] eqn:E; simpl in *; [|exact H1].
  exact (Hk a out out' E out' H1).
Qed.

Lemma keeps_try_result {A} (P : string → Prop) (r : result A) :
  keeps P (try_result r).
Proof. intros out Hout. exact Hout. Qed.

Lemma keeps_eval {A} (P : string → Prop) (o : outcome A) : keeps P (eval o).
Proof. intros out Hout. exact Hout. Qed.

Lemma keeps_done {A} (P : string → Prop) (a : A) : keeps P (done a).
Proof. intros out Hout. exact Hout. Qed.

Lemma keeps_print (P : string → Prop) (line : string) :
  P line → keeps P (print line).
Proof.
  intros HP out Hout. unfold print. simpl.
  apply Forall_app. split; [exact Hout|]. constructor; [exact HP|constructor].
Qed.

Lemma keeps_for_each {A} (P : string → Prop) (body : A → Script unit)
    (l : list A) :
  Forall (λ x, keeps P (body x)) l → keeps P (for_each body l).
Proof.
  induction 1 as [|x l Hx _ IH]; simpl; [apply keeps_done|].
  apply keeps_bind; [exact Hx|]. intros _ _ _ _. exact IH.
Qed.

Lemma eval_done {A} (o : outcome A) (a : A) (out out' : list string) :
  eval o out = (Done a, out') → o = Ok a.
Proof. unfold eval, try_result. destruct o; intros [= <- _]; reflexivity. Qed.

(** The report of a record whose flag is unset does not contain the
    loading-dose note. *)
Lemma print_dosage_no_note (patient : pyval) :
  flag_unset patient = true →
  keeps (λ line, line ≠ loading_note) (print_dosage str_other patient).
Proof.
  intros Hflag. unfold print_dosage.
  repeat (apply keeps_bind;
          [first [apply keeps_eval|apply keeps_try_result]|intros ? _ _ _]).
  apply keeps_bind; [apply keeps_print; discriminate|intros _ _ _ _].
  apply keeps_bind; [apply keeps_eval|intros lda out out' Hlda].
  apply eval_done in Hlda.
  assert (truthy lda = false) as ->.
  { destruct patient as [| | | | | |d]; try discriminate Hlda.
    unfold py_get in Hlda. unfold flag_unset in Hflag.
    destruct (dict_get "loading_dose_applied" d); injection Hlda as <-;
      apply negb_true_iff in Hflag; exact Hflag. }
  apply keeps_bind; [apply keeps_done|intros _ _ _ _].
  apply keeps_bind; [apply keeps_eval|intros warnings _ _ _].
  destruct (truthy warnings); [|apply keeps_done].
  apply keeps_bind; [apply keeps_eval|intros ? _ _ _].
  apply keeps_bind; [apply keeps_eval|intros ? _ _ _].
  apply keeps_print. discriminate.
Qed.

Lemma records_keep_the_flag (p r t : pyval) :
  dosage_record p = Ok (r, t) → flag_unset r = flag_unset p.
Proof.
  intros H. destruct (dosage_record_values p r t H) as (d & base & -> & _ & _ & ->).
  unfold flag_unset. rewrite !dict_get_set. reflexivity.
Qed.

(** X21. The report announces a loading dose only on the word of the input:
    when no loaded request carries a true [loading_dose_applied] field of
    its own, the line "  * Loading dose applied" is never printed, however
    the run ends and whether or not doses were doubled. *)
Theorem loading_note_is_never_printed (items : list pyval) :
  Forall (λ p, flag_unset p = true) items →
  loading_note ∉ snd (dosage_main str_other (Loaded (PyList items)) []).
Proof.
  intros Hflags.
  assert (keeps (λ line, line ≠ loading_note)
            (dosage_main str_other (Loaded (PyList items)))) as Hkeeps.
  { unfold dosage_main.
    apply keeps_bind; [simpl; apply keeps_done|intros _ _ _ _].
    apply keeps_bind;
      [destruct (negb _); [apply keeps_print; discriminate|apply keeps_done]
      |intros _ _ _ _].
    apply keeps_bind; [apply keeps_eval|intros r out out' Hr].
    apply eval_done in Hr. unfold dosages_loaded in Hr. simpl in Hr.
    unfold bind, outcome_bind in Hr. destruct r as [rs total].
    apply calculate_all_dosages_rounds in Hr as (rounds & Hall & -> & _).
    apply keeps_bind; [apply keeps_print; discriminate|intros _ _ _ _].
    apply keeps_bind.
    - apply keeps_for_each. simpl.
      clear -Hall Hflags. induction Hall as [|p [r t] ps rounds Hp _ IH]; simpl.
      + constructor.
      + apply Forall_cons in Hflags as [Hf Hfs]. constructor; [|exact (IH Hfs)].
        apply print_dosage_no_note.
        rewrite (records_keep_the_flag p r t Hp). exact Hf.
    - intros _ _ _ _.
      apply keeps_bind; [apply keeps_try_result|intros ? _ _ _].
      apply keeps_bind; [apply keeps_print; discriminate|intros _ _ _ _].
      apply keeps_done. }
  intros Hin. pose proof (Hkeeps [] ltac:(constructor)) as H.
  rewrite Forall_forall in H. exact (H _ Hin eq_refl).
Qed.

(** *** When the report is complete *)

Lemma format_dose (v : pyval) :
  is_dose v = true → ∃ s, format_2f v = Done s.
Proof.
  destruct v as [| |n|f| | |]; try discriminate; simpl.
  - intros H. apply Z.eqb_eq in H. subst n. eexists. reflexivity.
  - intros _. eexists. reflexivity.
Qed.

Lemma str_of_modelled (v : pyval) :
  str_modelled v = true → ∃ s, py_str str_other v = Done s.
Proof.
  destruct v as [|[]| | |s| |]; try discriminate; intros _; eexists; reflexivity.
Qed.

(** The advisory list is empty or one string. *)
Lemma warnings_for_cases (medication : pyval) :
  warnings_for medication = [] ∨ ∃ s, warnings_for medication = [PyStr s].
Proof.
  unfold warnings_for.
  repeat match goal with
         | |- context [if ?b then _ else _] => destruct b
         end; eauto.
Qed.

(** The report of a record made from a reportable request: one line, and at
    most a note and a warnings line. *)
Lemma print_dosage_finishes (d : dict) (t base : pyval) :
  reportable (PyDict d) = true →
  is_dose base = true → is_dose t = true →
  finishes 1 3
    (print_dosage str_other
       (PyDict (dict_set "warnings" (PyList (warnings_for (medication_of d)))
                 (dict_set "base_dosage" base
                   (dict_set "final_dosage" t (dict_set "dosage" t d))))))
    tt.
Proof.
  intros Hrep Hbase Ht out.
  unfold reportable in Hrep.
  apply andb_true_iff in Hrep as [_ Hrep].
  apply andb_true_iff in Hrep as [Hname Hmed].
  destruct (str_of_modelled _ Hname) as [sname Hsname].
  destruct (str_of_modelled _ Hmed) as [smed Hsmed].
  destruct (format_dose _ Hbase) as [sbase Hsbase].
  destruct (format_dose _ Ht) as [st Hst].
  unfold print_dosage. rewrite !py_get_dict, !dict_get_set. simpl String.eqb.
  cbv beta iota. fold (medication_of d).
  change (default PyNone (Some base)) with base.
  change (default PyNone (Some t)) with t.
  script. unfold print. rewrite Hsname, Hsmed, Hsbase, Hst.
  change (default PyNone (Some (PyList (warnings_for (medication_of d)))))
    with (PyList (warnings_for (medication_of d))).
  unfold py_getitem. rewrite dict_get_set. simpl String.eqb. cbv beta iota.
  destruct (truthy (default PyNone (dict_get "loading_dose_applied" d)));
    destruct (warnings_for_cases (medication_of d)) as [->|[w ->]]; simpl;
    rewrite <- ?app_assoc; eexists; (split; [reflexivity|simpl; lia]).
Qed.

Lemma for_each_finishes {A} (body : A → Script unit) (l : list A) :
  Forall (λ x, finishes 1 3 (body x) tt) l →
  finishes (length l) (3 * length l) (for_each body l) tt.
Proof.
  induction 1 as [|x l Hx _ IH]; intros out; simpl for_each.
  - exists []. rewrite app_nil_r. split; [reflexivity|simpl; lia].
  - unfold bind, Script_bind.
    destruct (Hx out) as (l1 & -> & Hl1).
    destruct (IH (out ++ l1)%list) as (l2 & -> & Hl2).
    exists (l1 ++ l2)%list. rewrite app_assoc. split; [reflexivity|].
    rewrite length_app. simpl length. lia.
Qed.

Lemma reportable_well_formed (p : pyval) :
  reportable p = true → well_formed_request p = true.
Proof. unfold reportable. intros H. apply andb_true_iff in H as [H _]. exact H. Qed.

(** A record made from a reportable request is reported in full. *)
Lemma record_finishes (p r t : pyval) :
  reportable p = true →
  dosage_record p = Ok (r, t) →
  finishes 1 3 (print_dosage str_other r) tt.
Proof.
  intros Hrep Hp.
  destruct (dosage_record_returns p (reportable_well_formed p Hrep))
    as (r' & t' & Hp' & Ht).
  rewrite Hp in Hp'. injection Hp' as <- <-.
  destruct (dosage_record_values p r t Hp) as (d & base & -> & _ & Hb & ->).
  apply print_dosage_finishes; [exact Hrep| |exact Ht].
  pose proof (reportable_well_formed _ Hrep) as Hwf. simpl in Hwf.
  unfold weight_of in Hb.
  destruct (dict_get "weight" d) as [w|]; [|discriminate Hwf].
  apply andb_true_iff in Hwf as [Hfloat _].
  exact (mul_is_dose _ _ _ Hfloat (factor_of_cases _) Hb).
Qed.

(** X22. For a data file that holds a non-empty array of requests, each a
    dict with a weight that has a float value and with a name and a
    medication that are text (or absent), script 2 completes: [main] returns
    what [calculate_all_dosages] returns, and prints the header, then between
    one and three lines per request, then the total with two decimals. *)
Theorem dosage_main_reports (items : list pyval) :
  items ≠ [] →
  Forall (λ p, reportable p = true) items →
  ∃ rs total lines t,
    calculate_all_dosages items = Ok (rs, total) ∧
    format_2f total = Done t ∧
    dosage_main str_other (Loaded (PyList items)) [] =
      (Done (rs, total),
       ("Medication Dosages:" :: lines ++
        [(newline ++ "Total medication needed: " ++ t ++ " mg")%string])%list) ∧
    (length items ≤ length lines ≤ 3 * length items)%nat.
Proof.
  intros Hne Hrep.
  assert (Forall (λ p, well_formed_request p = true) items) as Hwf.
  { eapply Forall_impl; [exact Hrep|]. exact reportable_well_formed. }
  destruct (dosage_loop_returns_dose items Hwf (PyInt 0) [] eq_refl)
    as (rs & total & E & Hdose).
  destruct (format_dose _ Hdose) as [t Ht].
  pose proof E as E'.
  apply calculate_all_dosages_rounds in E' as (rounds & Hall & Hrs & _).
  assert (Forall (λ r, finishes 1 3 (print_dosage str_other r) tt) rs) as Hfin.
  { subst rs. clear -Hall Hrep.
    induction Hall as [|p [r t] ps rounds Hp _ IH]; simpl; [constructor|].
    apply Forall_cons in Hrep as [Hr Hrs].
    constructor; [exact (record_finishes p r t Hr Hp)|exact (IH Hrs)]. }
  destruct (for_each_finishes _ _ Hfin ["Medication Dosages:"])
    as (lines & Hlines & Hlen).
  exists rs, total, lines, t. split; [exact E|]. split; [exact Ht|]. split.
  - unfold dosage_main. script. simpl load_patient_data. simpl for_each.
    destruct items as [|x items]; [contradiction|]. simpl truthy. simpl negb.
    cbv beta iota. unfold dosages_loaded, bind at 1, outcome_bind.
    simpl py_iter. cbv beta iota.
    change (calculate_all_dosages (x :: items))
      with (dosage_loop (x :: items) (PyInt 0) []).
    rewrite E. unfold done, print at 1. simpl.
    rewrite Hlines, Ht. unfold print. simpl. reflexivity.
  - assert (length rs = length items) as <-; [|exact Hlen].
    subst rs. rewrite length_map. symmetry. eapply Forall2_length. exact Hall.
Qed.

End Reports.

Lemma dosage_main_without_data_witness :
  dosage_main no_str (LoadFailed "[Errno 2] No such file or directory") [] =
    (Done ([], PyInt 0),
     ["Failed to load patient data: [Errno 2] No such file or directory";
      "Error loading patient data: No patient data found.";
      "Medication Dosages:";
      newline ++ "Total medication needed: 0.00 mg"]).
Proof.
  apply (dosage_main_without_data no_str
           (LoadFailed "[Errno 2] No such file or directory")).
  reflexivity.
Defined.

Lemma dosage_main_bad_request_witness :
  ∃ e', dosage_main no_str
          (Loaded (PyList [dosage_request (PyInt 70) "amiodarone" true;
                           PyDict [("name", PyStr "No Weight");
                                   ("medication", PyStr "fentanyl")]])) []
          = (Failed (Builtin e'), []).
Proof.
  apply (dosage_main_bad_request no_str _
           (PyDict [("name", PyStr "No Weight"); ("medication", PyStr "fentanyl")])
           _ TypeError).
  - apply elem_of_cons. right. apply elem_of_cons. left. reflexivity.
  - reflexivity.
Defined.

Lemma loading_note_is_never_printed_witness :
  loading_note ∉
    snd (dosage_main no_str
           (Loaded (PyList [dosage_request (PyInt 70) "amiodarone" true])) []).
Proof.
  apply (loading_note_is_never_printed no_str
           [dosage_request (PyInt 70) "amiodarone" true]).
  repeat constructor.
Defined.

Lemma dosage_main_reports_witness :
  ∃ rs total lines t,
    calculate_all_dosages three_requests = Ok (rs, total) ∧
    format_2f total = Done t ∧
    dosage_main no_str (Loaded (PyList three_requests)) [] =
      (Done (rs, total),
       ("Medication Dosages:" :: lines ++
        [(newline ++ "Total medication needed: " ++ t ++ " mg")%string])%list) ∧
    (length three_requests ≤ length lines ≤ 3 * length three_requests)%nat.
Proof.
  apply (dosage_main_reports no_str three_requests).
  - discriminate.
  - repeat constructor.
Defined.

End ScriptFacts.
